(** * Environmental Query Gateway (src/app.py)

    A shallow embedding of the Flask application of src/app.py: the Python
    values the handlers compute with, the relational store the handlers query
    (two tables, a fragment of SQL given as list combinators), the external
    text-generation service, the fourteen request handlers, and the
    properties of the query/response surface. *)

From Stdlib Require Import List String Ascii ZArith QArith Bool Arith Lia.
From Stdlib Require Import Permutation Sorted.
From Stdlib Require Floats.
Import ListNotations.

Set Warnings "-register-all".

Open Scope string_scope.
Open Scope list_scope.

(** ** Python values *)

Module Py.

(** The outcome of evaluating a Python expression: a value, or a raised
    exception.  The handlers only ever look at [str(e)] of an exception, so an
    exception is represented by that text. *)
Inductive result (A : Type) : Type :=
| Ok (a : A)
| Raise (msg : string).

Arguments Ok {A} a.
Arguments Raise {A} msg.

(** Numbers as [json.loads] produces them: [int], finite [float], and the
    non-finite floats Python's parser accepts. *)
Inductive number : Type :=
| Int (z : Z)
| Float (q : Q)
| NaN
| Infinity (negative : bool).

(** Parsed JSON, with Python's [None] as [JNull].  A [dict] keeps its keys in
    insertion order, hence an association list. *)
Inductive json : Type :=
| JNull
| JBool (b : bool)
| JNumber (n : number)
| JString (s : string)
| JArray (items : list json)
| JObject (fields : list (string * json)).

Definition number_truthy (n : number) : bool :=
  match n with
  | Int z => negb (Z.eqb z 0)
  | Float q => negb (Qeq_bool q 0)
  | NaN => true
  | Infinity _ => true
  end.

(** Python truth value testing, the [not data] of the handlers. *)
Definition truthy (v : json) : bool :=
  match v with
  | JNull => false
  | JBool b => b
  | JNumber n => number_truthy n
  | JString s => negb (String.eqb s "")
  | JArray items => match items with [] => false | _ :: _ => true end
  | JObject fields => match fields with [] => false | _ :: _ => true end
  end.

(** [not s] for [s] an optional string: [None] and the empty string. *)
Definition str_truthy (s : option string) : bool :=
  match s with
  | None => false
  | Some t => negb (String.eqb t "")
  end.

(** Whether a JSON value is an object with the key [k]. *)
Definition has_key (k : string) (v : json) : bool :=
  match v with
  | JObject fields => existsb (fun kv => String.eqb (fst kv) k) fields
  | _ => false
  end.

(** [str.isspace] on the characters a [string] holds (code points below
    256): tab to carriage return, the four separators 28..31, space, next
    line and no-break space. *)
Definition isspace (c : ascii) : bool :=
  let n := N_of_ascii c in
  ((9 <=? n) && (n <=? 13) || (28 <=? n) && (n <=? 32)
   || (n =? 133) || (n =? 160))%N.

Fixpoint lstrip (s : string) : string :=
  match s with
  | EmptyString => EmptyString
  | String c rest => if isspace c then lstrip rest else s
  end.

Fixpoint rstrip (s : string) : string :=
  match s with
  | EmptyString => EmptyString
  | String c rest =>
      match rstrip rest with
      | EmptyString => if isspace c then EmptyString else String c EmptyString
      | kept => String c kept
      end
  end.

(** [str.strip()] *)
Definition strip (s : string) : string := rstrip (lstrip s).

(** [d[k] = v] on a dict: an existing key keeps its place. *)
Fixpoint dict_set {V : Type} (k : string) (v : V) (d : list (string * V))
  : list (string * V) :=
  match d with
  | [] => [(k, v)]
  | (k', v') :: rest =>
      if String.eqb k' k then (k', v) :: rest else (k', v') :: dict_set k v rest
  end.

(** [dict(zip(keys, values))]: pairs up to the shorter of the two, inserted
    from left to right. *)
Definition dict_zip {V : Type} (keys : list string) (values : list V)
  : list (string * V) :=
  fold_left (fun d kv => dict_set (fst kv) (snd kv) d) (combine keys values) [].

End Py.

(** ** The relational store *)

Module Sql.

(** A value of a result row, as the driver hands it to Python; a REAL is
    finite or one of the two infinities. *)
Inductive value : Type :=
| Null
| Integer (z : Z)
| Real (q : Q)
| Infinite (negative : bool)
| Text (s : string).

(** A double as the store computes with it: a finite binary64 value, held
    as the rational it is, an infinity, or not-a-number. *)
Inductive double : Type :=
| Finite (q : Q)
| Inf (negative : bool)
| NaN.

(** The integer nearest to [n / d] for [0 <= n] and [0 < d], ties to even. *)
Definition nearest_even (n d : Z) : Z :=
  let k := (n / d)%Z in
  match (2 * (n mod d) ?= d)%Z with
  | Lt => k
  | Gt => (k + 1)%Z
  | Eq => if Z.even k then k else (k + 1)%Z
  end.

(** The binary64 value nearest to the positive rational [n / d], ties to
    even: 53 significant bits, exponents down to the subnormals of unit
    2^-1074, in lowest terms; nothing when the result is beyond the largest
    double. *)
Definition round_magnitude (n d : positive) : option Q :=
  let e0 := (Z.log2 (Zpos n) - Z.log2 (Zpos d))%Z in
  let e := if (Zpos d * 2 ^ Z.max e0 0 <=? Zpos n * 2 ^ Z.max (- e0) 0)%Z
           then e0 else (e0 - 1)%Z in
  let p := Z.max (e - 52) (-1074) in
  let k := nearest_even (Zpos n * 2 ^ Z.max (- p) 0) (Zpos d * 2 ^ Z.max p 0) in
  if ((971 <? p) || ((p =? 971) && (2 ^ 53 <=? k)))%Z then None
  else Some (Qred (if (0 <=? p)%Z then inject_Z (k * 2 ^ p)
                   else k # Z.to_pos (2 ^ (- p)))).

(** Rounding of a real result to a double, overflowing to an infinity. *)
Definition round (q : Q) : double :=
  match Qnum q with
  | Z0 => Finite 0
  | Zpos n =>
      match round_magnitude n (Qden q) with
      | Some m => Finite m
      | None => Inf false
      end
  | Zneg n =>
      match round_magnitude n (Qden q) with
      | Some m => Finite (- m)
      | None => Inf true
      end
  end.

(** Addition and division of doubles: the exact result, rounded. *)
Definition double_add (a b : double) : double :=
  match a, b with
  | NaN, _ | _, NaN => NaN
  | Finite x, Finite y => round (x + y)
  | Inf s, Finite _ | Finite _, Inf s => Inf s
  | Inf s, Inf t => if Bool.eqb s t then Inf s else NaN
  end.

Definition negative (q : Q) : bool := (Qnum q <? 0)%Z.

Definition double_div (a b : double) : double :=
  match a, b with
  | NaN, _ | _, NaN => NaN
  | Inf _, Inf _ => NaN
  | Inf s, Finite y => Inf (xorb s (negative y))
  | Finite _, Inf _ => Finite 0
  | Finite x, Finite y =>
      if Qeq_bool y 0 then (if Qeq_bool x 0 then NaN else Inf (negative x))
      else round (x / y)
  end.

(** The value a double is handed over as: not-a-number becomes NULL. *)
Definition double_value (a : double) : value :=
  match a with
  | Finite q => Real q
  | Inf s => Infinite s
  | NaN => Null
  end.

(** The answer to a statement: [cursor.description] (column names only) and
    the rows [fetchall] returns. *)
Record rowset : Type := mkRowset {
  description : list string;
  tuples : list (list value)
}.

(** A bucket label: the result of [DATE] or [STRFTIME], NULL or text. *)
Definition label : Type := option string.

Definition label_value (l : label) : value :=
  match l with
  | None => Null
  | Some s => Text s
  end.

Definition label_eqb (a b : label) : bool :=
  match a, b with
  | None, None => true
  | Some x, Some y => String.eqb x y
  | _, _ => false
  end.

(** The store's ordering of labels: NULL sorts before every text, texts by
    their bytes. *)
Definition label_leb (a b : label) : bool :=
  match a, b with
  | None, _ => true
  | Some _, None => false
  | Some x, Some y => String.leb x y
  end.

(** [x BETWEEN lo AND hi] on text: [lo <= x AND x <= hi]. *)
Definition between (lo hi x : string) : bool :=
  String.leb lo x && String.leb x hi.

(** The same with bound parameters, where Python's [None] binds NULL: a
    comparison with NULL is not true, so the row is not selected. *)
Definition between_bound (lo hi : option string) (x : string) : bool :=
  match lo, hi with
  | Some l, Some h => between l h x
  | _, _ => false
  end.

(** ORDER BY: [before x y] says that [x] may stand before [y].  Rows that
    compare equal keep their scan order. *)
Fixpoint insert_by {A : Type} (before : A -> A -> bool) (x : A) (l : list A)
  : list A :=
  match l with
  | [] => [x]
  | y :: rest => if before x y then x :: y :: rest else y :: insert_by before x rest
  end.

Definition order_by {A : Type} (before : A -> A -> bool) (l : list A) : list A :=
  fold_right (insert_by before) [] l.

Definition desc {A K : Type} (leb : K -> K -> bool) (key : A -> K) : A -> A -> bool :=
  fun x y => leb (key y) (key x).

Definition asc {A K : Type} (leb : K -> K -> bool) (key : A -> K) : A -> A -> bool :=
  fun x y => leb (key x) (key y).

(** LIMIT n *)
Definition limit {A : Type} (n : nat) (l : list A) : list A := firstn n l.

(** GROUP BY with one aggregate: every row is fed to the accumulator of its
    group, a group being created when its first row is met. *)
Fixpoint feed {Acc : Type} (k : label) (step : Acc -> Acc) (init : Acc)
  (groups : list (label * Acc)) : list (label * Acc) :=
  match groups with
  | [] => [(k, step init)]
  | (k', a) :: rest =>
      if label_eqb k' k then (k', step a) :: rest
      else (k', a) :: feed k step init rest
  end.

Definition group_by {A Acc : Type} (key : A -> label) (step : Acc -> A -> Acc)
  (init : Acc) (rows : list A) : list (label * Acc) :=
  fold_left (fun groups r => feed (key r) (fun a => step a r) init groups) rows [].

(** COUNT( * ): one more per row. *)
Definition count_step {A : Type} (n : nat) (_ : A) : nat := S n.

(** AVG(x): the running sum, a double to which each value is added as a
    double, and the number of rows; at the end the sum is divided by the
    number of rows as a double. *)
Definition avg_step {A : Type} (x : A -> Q) (acc : double * nat) (r : A)
  : double * nat :=
  (double_add (fst acc) (round (x r)), S (snd acc)).

Definition avg_final (acc : double * nat) : double :=
  double_div (fst acc) (round (inject_Z (Z.of_nat (snd acc)))).

End Sql.

(** ** The gateway *)

(** Modelled from the spec: the schema of the two tables, which the
    repository does not declare.  A reading is {id: integer, timestamp:
    ISO-8601-like string, temperature: numeric}, an event {id: integer,
    timestamp: string, motion_detected: boolean/integer flag}; the
    docstrings of [get_temperature_data] and [get_motion_data] name the same
    three columns.  A numeric value is held as the rational it is, which
    every finite REAL or INTEGER is. *)
Record TemperatureReading : Type := mkReading {
  reading_id : Z;
  reading_timestamp : string;
  reading_temperature : Q
}.

Record MotionEvent : Type := mkEvent {
  event_id : Z;
  event_timestamp : string;
  event_motion_detected : Z
}.

(** The contents of the store, each table in scan order. *)
Record database : Type := mkDatabase {
  temperature : list TemperatureReading;
  motion : list MotionEvent
}.

Definition temperature_columns : list string := ["id"; "timestamp"; "temperature"].
Definition motion_columns : list string := ["id"; "timestamp"; "motion_detected"].

(** The tuple [SELECT *] yields for a row. *)
Definition reading_tuple (r : TemperatureReading) : list Sql.value :=
  [Sql.Integer (reading_id r); Sql.Text (reading_timestamp r);
   Sql.Real (reading_temperature r)].

Definition event_tuple (e : MotionEvent) : list Sql.value :=
  [Sql.Integer (event_id e); Sql.Text (event_timestamp e);
   Sql.Integer (event_motion_detected e)].

(** A statement handed to [cursor.execute]: its text, the bound parameters,
    and what the store does with it, the answer and the contents afterwards. *)
Record statement : Type := mkStatement {
  sql : string;
  params : list (option string);
  effect : database -> Sql.rowset * database
}.

(** A statement that only reads. *)
Definition select (text : string) (bound : list (option string))
  (q : database -> Sql.rowset) : statement :=
  {| sql := text; params := bound; effect := fun d => (q d, d) |}.

(** The request to [client.chat.completions.create]. *)
Record chat_request : Type := mkChatRequest {
  chat_model : string;
  chat_messages : list (string * string);
  chat_max_tokens : nat;
  chat_n : nat;
  chat_temperature : Q
}.

(** What the handler reads of a completion: [message.content] of each
    choice, which may be [None]. *)
Record chat_completion : Type := mkCompletion {
  choices : list (option string)
}.

(** An outbound call and, when it raised, the exception's text. *)
Inductive event : Type :=
| SqlCall (text : string) (bound : list (option string)) (raised : option string)
| ChatCall (req : chat_request) (raised : option string).

Definition event_raised (e : event) : option string :=
  match e with
  | SqlCall _ _ r => r
  | ChatCall _ r => r
  end.

(** Everything outside a handler: whether the module-level name [conn] was
    bound at startup, whether the store fails (and with which message), the
    store's contents, the text-generation service, and the outbound calls
    made so far.  The last is a log kept for the properties; no handler
    reads it. *)
Record world : Type := mkWorld {
  conn_bound : bool;
  store_fault : option string;
  db : database;
  llm : chat_request -> Py.result chat_completion;
  trace : list event
}.

Definition record_call (e : event) (w : world) : world :=
  {| conn_bound := conn_bound w; store_fault := store_fault w; db := db w;
     llm := llm w; trace := trace w ++ [e] |}.

Definition set_db (d : database) (w : world) : world :=
  {| conn_bound := conn_bound w; store_fault := store_fault w; db := d;
     llm := llm w; trace := trace w |}.

Definition set_trace (t : list event) (w : world) : world :=
  {| conn_bound := conn_bound w; store_fault := store_fault w; db := db w;
     llm := llm w; trace := t |}.

(** Handler code: it reads and changes the world and may raise. *)
Definition M (A : Type) : Type := world -> Py.result A * world.

Definition ret {A : Type} (a : A) : M A := fun w => (Py.Ok a, w).

Definition raise {A : Type} (msg : string) : M A := fun w => (Py.Raise msg, w).

Definition bind {A B : Type} (m : M A) (k : A -> M B) : M B :=
  fun w =>
    match m w with
    | (Py.Ok a, w') => k a w'
    | (Py.Raise msg, w') => (Py.Raise msg, w')
    end.

Definition lift {A : Type} (r : Py.result A) : M A := fun w => (r, w).

Declare Scope py_scope.
Delimit Scope py_scope with py.
Notation "x <- m ;; k" := (bind m (fun x => k))
  (at level 100, m at next level, right associativity) : py_scope.
Notation "m ;;; k" := (bind m (fun _ => k))
  (at level 100, right associativity) : py_scope.

(** The HTTP response: status code and JSON body. *)
Record response : Type := mkResponse {
  status : Z;
  body : Py.json
}.

(** The part of a Flask request the handlers read: what [request.json]
    evaluates to (a parsed body, [None] as [JNull], or an exception Flask
    raises) and the query parameters [request.args]. *)
Record request : Type := mkRequest {
  request_json : Py.result Py.json;
  request_args : list (string * string)
}.

(** [request.args.get(k)]: the first value of [k], or [None]. *)
Fixpoint args_get (k : string) (args : list (string * string)) : option string :=
  match args with
  | [] => None
  | (k', v) :: rest => if String.eqb k' k then Some v else args_get k rest
  end.

Definition error_body (msg : string) : Py.json :=
  Py.JObject [("error", Py.JString msg)].

(** [try: ... except Exception as e: return jsonify({'error': str(e)}), 500] *)
Definition try_except (m : M response) : world -> response * world :=
  fun w =>
    match m w with
    | (Py.Ok r, w') => (r, w')
    | (Py.Raise msg, w') => (mkResponse 500 (error_body msg), w')
    end.

(** [conn.cursor()]: a NameError when [conn] was never bound. *)
Definition conn_cursor : M unit :=
  fun w =>
    if conn_bound w then (Py.Ok tt, w)
    else (Py.Raise "name 'conn' is not defined", w).

(** [cursor.execute(query, params)]: one call to the store. *)
Definition cursor_execute (st : statement) : M Sql.rowset :=
  fun w =>
    match store_fault w with
    | Some msg => (Py.Raise msg, record_call (SqlCall (sql st) (params st) (Some msg)) w)
    | None =>
        let (answer, d) := effect st (db w) in
        (Py.Ok answer, record_call (SqlCall (sql st) (params st) None) (set_db d w))
    end.

(** [client.chat.completions.create(...)]: one call to the service. *)
Definition chat_completions_create (req : chat_request) : M chat_completion :=
  fun w =>
    match llm w req with
    | Py.Ok c => (Py.Ok c, record_call (ChatCall req None) w)
    | Py.Raise msg => (Py.Raise msg, record_call (ChatCall req (Some msg)) w)
    end.

Definition value_json (v : Sql.value) : Py.json :=
  match v with
  | Sql.Null => Py.JNull
  | Sql.Integer z => Py.JNumber (Py.Int z)
  | Sql.Real q => Py.JNumber (Py.Float q)
  | Sql.Infinite s => Py.JNumber (Py.Infinity s)
  | Sql.Text s => Py.JString s
  end.

(** [jsonify] of a dict of row values, and of a list of them. *)
Definition jsonify_dict (d : list (string * Sql.value)) : Py.json :=
  Py.JObject (map (fun kv => (fst kv, value_json (snd kv))) d).

Definition jsonify_list (ds : list (list (string * Sql.value))) : Py.json :=
  Py.JArray (map jsonify_dict ds).

(** [cursor.fetchall()], [cursor.fetchone()] and the column names
    [[desc[0] for desc in cursor.description]]. *)
Definition fetchall (cur : Sql.rowset) : list (list Sql.value) := Sql.tuples cur.

Definition fetchone (cur : Sql.rowset) : option (list Sql.value) :=
  hd_error (Sql.tuples cur).

Definition column_names (cur : Sql.rowset) : list string := Sql.description cur.

(** [completion.choices[0]] *)
Definition first_choice (c : chat_completion) : Py.result (option string) :=
  match choices c with
  | [] => Py.Raise "list index out of range"
  | x :: _ => Py.Ok x
  end.

(** [message.content.strip()] *)
Definition content_strip (content : option string) : Py.result string :=
  match content with
  | None => Py.Raise "'NoneType' object has no attribute 'strip'"
  | Some s => Py.Ok (Py.strip s)
  end.

Definition system_prompt : string :=
"You are an AI assistant specialized in summarizing environmental data. Your task is to provide a concise, well-structured summary of the given environmental data. Please follow these guidelines:

1. Start with a brief overview of the data period and types of measurements included.
2. Provide key statistics:
   - Average temperature (if available)
   - Total number of motion events (if available)
   - Any other relevant aggregate data
3. Identify and mention any notable patterns or anomalies in the data.
4. Format the summary in easy-to-read paragraphs with appropriate line breaks.
5. Use bullet points for listing key points or statistics when appropriate.
6. End with a brief conclusion or recommendation based on the data.

Ensure that your response is well-formatted and easily readable when returned through an API.".

Definition user_prompt (data_str : string) : string :=
"Please provide a brief, well-structured summary of the following environmental data:

" ++ data_str.

(** The call the summary route makes for the serialized body [data_str]. *)
Definition summary_request (data_str : string) : chat_request :=
  {| chat_model := "gpt-4o-mini-2024-07-18";
     chat_messages := [("system", system_prompt); ("user", user_prompt data_str)];
     chat_max_tokens := 650;
     chat_n := 1;
     chat_temperature := 7 # 10 |}.

Section Gateway.

(** The store's date functions, [DATE(x)] and [STRFTIME(format, x)], which
    yield NULL on text they cannot read as a date. *)
Variable sql_date : string -> Sql.label.
Variable sql_strftime : string -> string -> Sql.label.

(** [json.dumps(data, indent=2)] *)
Variable json_dumps : Py.json -> string.

(** The text of the TypeError that [zip(columns, None)] raises. *)
Variable none_not_iterable : string.

Local Open Scope py_scope.

(** *** The statements *)

Definition latest_by_timestamp {A : Type} (ts : A -> string) (rows : list A) : list A :=
  Sql.limit 100 (Sql.order_by (Sql.desc String.leb ts) rows).

Definition temperature_latest : statement :=
  select "SELECT * FROM temperature ORDER BY timestamp DESC LIMIT 100" []
    (fun d => Sql.mkRowset temperature_columns
       (map reading_tuple (latest_by_timestamp reading_timestamp (temperature d)))).

Definition motion_latest : statement :=
  select "SELECT * FROM motion ORDER BY timestamp DESC LIMIT 100" []
    (fun d => Sql.mkRowset motion_columns
       (map event_tuple (latest_by_timestamp event_timestamp (motion d)))).

(** [SELECT bucket, AVG(temperature) ... GROUP BY bucket]: one pair per bucket. *)
Definition average_groups (bucket : string -> Sql.label) (d : database)
  : list (Sql.label * Sql.double) :=
  map (fun g => (fst g, Sql.avg_final (snd g)))
    (Sql.group_by (fun r => bucket (reading_timestamp r))
       (Sql.avg_step reading_temperature) (Sql.Finite 0, 0%nat) (temperature d)).

(** [SELECT bucket, COUNT( * ) ... GROUP BY bucket] *)
Definition count_groups (bucket : string -> Sql.label) (d : database)
  : list (Sql.label * nat) :=
  Sql.group_by (fun e => bucket (event_timestamp e)) Sql.count_step 0%nat (motion d).

Definition average_tuple (g : Sql.label * Sql.double) : list Sql.value :=
  [Sql.label_value (fst g); Sql.double_value (snd g)].

Definition count_tuple (g : Sql.label * nat) : list Sql.value :=
  [Sql.label_value (fst g); Sql.Integer (Z.of_nat (snd g))].

Definition by_label_desc {V : Type} (groups : list (Sql.label * V)) : list (Sql.label * V) :=
  Sql.order_by (Sql.desc Sql.label_leb fst) groups.

Definition by_label_asc {V : Type} (groups : list (Sql.label * V)) : list (Sql.label * V) :=
  Sql.order_by (Sql.asc Sql.label_leb fst) groups.

Definition temperature_average_day : statement :=
  select "
            SELECT DATE(timestamp) as date, AVG(temperature) as average_temp
            FROM temperature
            GROUP BY DATE(timestamp)
            ORDER BY DATE(timestamp) DESC
        " []
    (fun d => Sql.mkRowset ["date"; "average_temp"]
       (map average_tuple (by_label_desc (average_groups sql_date d)))).

Definition temperature_average_week : statement :=
  select "
            SELECT STRFTIME('%Y-%W', timestamp) as week, AVG(temperature) as average_temp
            FROM temperature
            GROUP BY STRFTIME('%Y-%W', timestamp)
            ORDER BY STRFTIME('%Y-%W', timestamp) DESC
        " []
    (fun d => Sql.mkRowset ["week"; "average_temp"]
       (map average_tuple (by_label_desc (average_groups (sql_strftime "%Y-%W") d)))).

Definition temperature_average_month : statement :=
  select "
            SELECT STRFTIME('%Y-%m', timestamp) as month, AVG(temperature) as average_temp
            FROM temperature
            GROUP BY STRFTIME('%Y-%m', timestamp)
            ORDER BY STRFTIME('%Y-%m', timestamp) DESC
        " []
    (fun d => Sql.mkRowset ["month"; "average_temp"]
       (map average_tuple (by_label_desc (average_groups (sql_strftime "%Y-%m") d)))).

Definition motion_count_day : statement :=
  select "
            SELECT DATE(timestamp) as date, COUNT(*) as motion_count
            FROM motion
            GROUP BY DATE(timestamp)
            ORDER BY DATE(timestamp) DESC
        " []
    (fun d => Sql.mkRowset ["date"; "motion_count"]
       (map count_tuple (by_label_desc (count_groups sql_date d)))).

Definition motion_count_hour : statement :=
  select "
            SELECT STRFTIME('%H', timestamp) as hour, COUNT(*) as motion_count
            FROM motion
            GROUP BY STRFTIME('%H', timestamp)
            ORDER BY STRFTIME('%H', timestamp) ASC
        " []
    (fun d => Sql.mkRowset ["hour"; "motion_count"]
       (map count_tuple (by_label_asc (count_groups (sql_strftime "%H") d)))).

Definition motion_count_week : statement :=
  select "
            SELECT STRFTIME('%Y-%W', timestamp) as week, COUNT(*) as motion_count
            FROM motion
            GROUP BY STRFTIME('%Y-%W', timestamp)
            ORDER BY STRFTIME('%Y-%W', timestamp) DESC
        " []
    (fun d => Sql.mkRowset ["week"; "motion_count"]
       (map count_tuple (by_label_desc (count_groups (sql_strftime "%Y-%W") d)))).

Definition rows_between {A : Type} (ts : A -> string) (lo hi : option string)
  (rows : list A) : list A :=
  Sql.order_by (Sql.desc String.leb ts)
    (filter (fun r => Sql.between_bound lo hi (ts r)) rows).

Definition temperature_between (start_date end_date : option string) : statement :=
  select "
            SELECT * FROM temperature
            WHERE timestamp BETWEEN ? AND ?
            ORDER BY timestamp DESC
        " [start_date; end_date]
    (fun d => Sql.mkRowset temperature_columns
       (map reading_tuple
          (rows_between reading_timestamp start_date end_date (temperature d)))).

Definition motion_between (start_date end_date : option string) : statement :=
  select "
            SELECT * FROM motion
            WHERE timestamp BETWEEN ? AND ?
            ORDER BY timestamp DESC
        " [start_date; end_date]
    (fun d => Sql.mkRowset motion_columns
       (map event_tuple
          (rows_between event_timestamp start_date end_date (motion d)))).

Definition hottest (rows : list TemperatureReading) : list TemperatureReading :=
  Sql.limit 1 (Sql.order_by (Sql.desc Qle_bool reading_temperature) rows).

Definition temperature_peak : statement :=
  select "SELECT * FROM temperature ORDER BY temperature DESC LIMIT 1" []
    (fun d => Sql.mkRowset temperature_columns (map reading_tuple (hottest (temperature d)))).

Definition busiest (groups : list (Sql.label * nat)) : list (Sql.label * nat) :=
  Sql.limit 1 (Sql.order_by (Sql.desc Nat.leb snd) groups).

Definition motion_peak : statement :=
  select "
            SELECT DATE(timestamp) as date, COUNT(*) as motion_count
            FROM motion
            GROUP BY DATE(timestamp)
            ORDER BY COUNT(*) DESC LIMIT 1
        " []
    (fun d => Sql.mkRowset ["date"; "motion_count"]
       (map count_tuple (busiest (count_groups sql_date d)))).

(** *** The handlers *)

Definition handler : Type := request -> world -> response * world.

(** [jsonify(x)] with no status: 200. *)
Definition ok (b : Py.json) : response := mkResponse 200 b.

(** POST /summarize *)
Definition get_summary : handler := fun req =>
  try_except (
    data <- lift (request_json req) ;;
    if negb (Py.truthy data) then
      ret (mkResponse 400 (error_body "No data provided"))
    else
      let data_str := json_dumps data in
      completion <- chat_completions_create (summary_request data_str) ;;
      content <- lift (first_choice completion) ;;
      summary <- lift (content_strip content) ;;
      ret (ok (Py.JObject [("summary", Py.JString summary)]))).

(** The body shared by the list routes once the query is chosen:
    [cursor.execute(query)], [fetchall], the column names, one dict per row. *)
Definition fetch_list (query : statement) : M response :=
  conn_cursor ;;;
  cursor <- cursor_execute query ;;
  let rows := fetchall cursor in
  let columns := column_names cursor in
  let results := map (fun row => Py.dict_zip columns row) rows in
  ret (ok (jsonify_list results)).

(** The same with [fetchone] and a single dict. *)
Definition fetch_single (query : statement) : M response :=
  conn_cursor ;;;
  cursor <- cursor_execute query ;;
  let row := fetchone cursor in
  let columns := column_names cursor in
  result <- lift (match row with
                  | None => Py.Raise none_not_iterable
                  | Some r => Py.Ok (Py.dict_zip columns r)
                  end) ;;
  ret (ok (jsonify_dict result)).

(** GET /data/temperature *)
Definition get_temperature_data : handler := fun _ =>
  try_except (fetch_list temperature_latest).

(** GET /data/motion *)
Definition get_motion_data : handler := fun _ =>
  try_except (fetch_list motion_latest).

(** GET /data/temperature/average/day *)
Definition get_daily_temperature_average : handler := fun _ =>
  try_except (fetch_list temperature_average_day).

(** GET /data/temperature/average/week *)
Definition get_weekly_temperature_average : handler := fun _ =>
  try_except (fetch_list temperature_average_week).

(** GET /data/temperature/average/month *)
Definition get_monthly_temperature_average : handler := fun _ =>
  try_except (fetch_list temperature_average_month).

(** GET /data/motion/by-day *)
Definition get_motion_by_day : handler := fun _ =>
  try_except (fetch_list motion_count_day).

(** GET /data/temperature/by-day, the same statement as the daily average. *)
Definition get_temperature_by_day : handler := fun _ =>
  try_except (fetch_list temperature_average_day).

(** GET /data/motion/by-hour *)
Definition get_motion_by_hour : handler := fun _ =>
  try_except (fetch_list motion_count_hour).

(** GET /data/motion/by-week *)
Definition get_motion_by_week : handler := fun _ =>
  try_except (fetch_list motion_count_week).

(** GET /data/temperature/range *)
Definition get_temperature_in_range : handler := fun req =>
  try_except (
    let start_date := args_get "start_date" (request_args req) in
    let end_date := args_get "end_date" (request_args req) in
    if negb (Py.str_truthy start_date) || negb (Py.str_truthy end_date) then
      ret (mkResponse 400 (error_body "Start date and end date are required"))
    else fetch_list (temperature_between start_date end_date)).

(** GET /data/motion/range *)
Definition get_motion_in_range : handler := fun req =>
  try_except (
    let start_date := args_get "start_date" (request_args req) in
    let end_date := args_get "end_date" (request_args req) in
    if negb (Py.str_truthy start_date) || negb (Py.str_truthy end_date) then
      ret (mkResponse 400 (error_body "Start date and end date are required"))
    else fetch_list (motion_between start_date end_date)).

(** GET /data/temperature/peak *)
Definition get_peak_temperature : handler := fun _ =>
  try_except (fetch_single temperature_peak).

(** GET /data/motion/peak *)
Definition get_peak_motion : handler := fun _ =>
  try_except (fetch_single motion_peak).

(** The routes the application registers. *)
Inductive route : Type :=
| summarize
| data_temperature
| data_motion
| data_temperature_average_day
| data_temperature_average_week
| data_temperature_average_month
| data_motion_by_day
| data_temperature_by_day
| data_motion_by_hour
| data_motion_by_week
| data_temperature_range
| data_motion_range
| data_temperature_peak
| data_motion_peak.

Definition view (r : route) : handler :=
  match r with
  | summarize => get_summary
  | data_temperature => get_temperature_data
  | data_motion => get_motion_data
  | data_temperature_average_day => get_daily_temperature_average
  | data_temperature_average_week => get_weekly_temperature_average
  | data_temperature_average_month => get_monthly_temperature_average
  | data_motion_by_day => get_motion_by_day
  | data_temperature_by_day => get_temperature_by_day
  | data_motion_by_hour => get_motion_by_hour
  | data_motion_by_week => get_motion_by_week
  | data_temperature_range => get_temperature_in_range
  | data_motion_range => get_motion_in_range
  | data_temperature_peak => get_peak_temperature
  | data_motion_peak => get_peak_motion
  end.

End Gateway.

(** ** Vocabulary of the properties *)

(** The JSON object of a reading and of an event, all native columns. *)
Definition reading_object (r : TemperatureReading) : Py.json :=
  Py.JObject [("id", Py.JNumber (Py.Int (reading_id r)));
              ("timestamp", Py.JString (reading_timestamp r));
              ("temperature", Py.JNumber (Py.Float (reading_temperature r)))].

Definition event_object (e : MotionEvent) : Py.json :=
  Py.JObject [("id", Py.JNumber (Py.Int (event_id e)));
              ("timestamp", Py.JString (event_timestamp e));
              ("motion_detected", Py.JNumber (Py.Int (event_motion_detected e)))].

(** The JSON object of a bucket with its average, and with its count. *)
Definition average_object (key : string) (g : Sql.label * Sql.double) : Py.json :=
  Py.JObject [(key, value_json (Sql.label_value (fst g)));
              ("average_temp", value_json (Sql.double_value (snd g)))].

Definition count_object (key : string) (g : Sql.label * nat) : Py.json :=
  Py.JObject [(key, value_json (Sql.label_value (fst g)));
              ("motion_count", Py.JNumber (Py.Int (Z.of_nat (snd g))))].

(** Sorted by timestamp, descending. *)
Definition newest_first {A : Type} (ts : A -> string) (l : list A) : Prop :=
  StronglySorted (fun a b => String.leb (ts b) (ts a) = true) l.

Definition labels_descending {V : Type} (groups : list (Sql.label * V)) : Prop :=
  StronglySorted (fun a b => Sql.label_leb (fst b) (fst a) = true) groups.

Definition labels_ascending {V : Type} (groups : list (Sql.label * V)) : Prop :=
  StronglySorted (fun a b => Sql.label_leb (fst a) (fst b) = true) groups.

(** The rows of a table that map to the bucket [b]. *)
Definition in_bucket {A : Type} (bucket : A -> Sql.label) (b : Sql.label)
  (rows : list A) : list A :=
  filter (fun r => Sql.label_eqb (bucket r) b) rows.

(** The accumulator of the group labelled [k], when there is one. *)
Fixpoint group_of {Acc : Type} (k : Sql.label) (groups : list (Sql.label * Acc))
  : option Acc :=
  match groups with
  | [] => None
  | (k', a) :: rest => if Sql.label_eqb k' k then Some a else group_of k rest
  end.



(** The average in doubles: the values added one after the other, each sum
    rounded, and the last sum divided by the number of values, rounded. *)
Definition float_sum (l : list Q) : Sql.double :=
  fold_left (fun s x => Sql.double_add s (Sql.round x)) l (Sql.Finite 0).

Definition float_average (l : list Q) : Sql.double :=
  Sql.double_div (float_sum l) (Sql.round (inject_Z (Z.of_nat (List.length l)))).

(** A response that lists, for the buckets of the temperature table, the
    average in doubles of the temperatures of each, taken in scan order. *)
Definition averages_by (bucket : string -> Sql.label) (key : string)
  (d : database) (resp : response) : Prop :=
  exists groups : list (Sql.label * Sql.double),
    body resp = Py.JArray (map (average_object key) groups)
    /\ NoDup (map fst groups)
    /\ (forall b, In b (map fst groups) <->
                  exists r, In r (temperature d) /\ bucket (reading_timestamp r) = b)
    /\ (forall b v, In (b, v) groups ->
          v = float_average
                (map reading_temperature
                   (in_bucket (fun r => bucket (reading_timestamp r)) b
                      (temperature d)))).

(** A response that lists, for the buckets of the motion table, the number
    of events of each. *)
Definition counts_by (bucket : string -> Sql.label) (key : string)
  (d : database) (resp : response) : Prop :=
  exists groups : list (Sql.label * nat),
    body resp = Py.JArray (map (count_object key) groups)
    /\ NoDup (map fst groups)
    /\ (forall b, In b (map fst groups) <->
                  exists e, In e (motion d) /\ bucket (event_timestamp e) = b)
    /\ (forall b n, In (b, n) groups ->
          n = List.length (in_bucket (fun e => bucket (event_timestamp e)) b (motion d))).

(** A response whose array of averages (of counts) is ordered by label. *)
Definition averages_descending (key : string) (resp : response) : Prop :=
  exists groups : list (Sql.label * Sql.double),
    body resp = Py.JArray (map (average_object key) groups)
    /\ labels_descending groups.

Definition counts_descending (key : string) (resp : response) : Prop :=
  exists groups : list (Sql.label * nat),
    body resp = Py.JArray (map (count_object key) groups)
    /\ labels_descending groups.

Definition counts_ascending (key : string) (resp : response) : Prop :=
  exists groups : list (Sql.label * nat),
    body resp = Py.JArray (map (count_object key) groups)
    /\ labels_ascending groups.

(** A response that lists the (at most) hundred most recently timestamped
    rows of a table, newest first: the rows kept and the rows left out make
    up the table, no row left out is newer than a row kept, and rows are
    left out only when a hundred are kept. *)
Definition latest_hundred {A : Type} (ts : A -> string) (object : A -> Py.json)
  (table : list A) (resp : response) : Prop :=
  exists kept rest : list A,
    body resp = Py.JArray (map object kept)
    /\ (List.length kept <= 100)%nat
    /\ newest_first ts kept
    /\ Permutation (kept ++ rest) table
    /\ (forall a b, In a kept -> In b rest -> String.leb (ts b) (ts a) = true)
    /\ (rest = [] \/ List.length kept = 100%nat).

(** A response that lists exactly the rows of a table whose timestamp lies
    between [lo] and [hi], both included, newest first. *)
Definition rows_in_range {A : Type} (ts : A -> string) (object : A -> Py.json)
  (lo hi : string) (table : list A) (resp : response) : Prop :=
  exists rows : list A,
    body resp = Py.JArray (map object rows)
    /\ Permutation rows
         (filter (fun r => String.leb lo (ts r) && String.leb (ts r) hi) table)
    /\ (forall r, In r rows <->
                  In r table /\ String.leb lo (ts r) = true
                  /\ String.leb (ts r) hi = true)
    /\ newest_first ts rows.

(** A response that is a reading of the table no reading of which is hotter. *)
Definition hottest_reading (table : list TemperatureReading) (resp : response) : Prop :=
  exists r : TemperatureReading,
    body resp = reading_object r
    /\ In r table
    /\ forall r', In r' table -> reading_temperature r' <= reading_temperature r.

(** The number of events of the table on the day [day]. *)
Definition events_on (bucket : string -> Sql.label) (day : Sql.label)
  (table : list MotionEvent) : nat :=
  List.length (in_bucket (fun e => bucket (event_timestamp e)) day table).

(** A response that is a day of the table with its number of events, no day
    of the table having more. *)
Definition busiest_day (bucket : string -> Sql.label) (table : list MotionEvent)
  (resp : response) : Prop :=
  exists (day : Sql.label) (n : nat),
    body resp = count_object "date" (day, n)
    /\ (exists e, In e table /\ bucket (event_timestamp e) = day)
    /\ n = events_on bucket day table
    /\ forall e, In e table ->
         (events_on bucket (bucket (event_timestamp e)) table <= n)%nat.

(** A query parameter that is absent or empty. *)
Definition absent_or_empty (p : option string) : Prop := p = None \/ p = Some "".

(** The calls a handler made: what it appended to the trace. *)
Definition calls_made (before after : world) : list event :=
  skipn (List.length (trace before)) (trace after).

(** A statement whose first word is SELECT. *)
Definition is_select (text : string) : bool :=
  String.prefix "SELECT" (Py.lstrip text).

Definition read_only (e : event) : Prop :=
  match e with
  | SqlCall text _ _ => is_select text = true
  | ChatCall _ _ => True
  end.

(** How a handler can end: without an outbound call; after one call that
    was answered; or after one call that raised, with status 500 and the
    exception's text as the error.  The call, if any, reads only. *)
Inductive outcome (w : world) : response * world -> Prop :=
| no_call (resp : response) : outcome w (resp, w)
| call_answered (resp : response) (e : event) :
    event_raised e = None -> read_only e ->
    outcome w (resp, record_call e w)
| call_failed (e : event) (msg : string) :
    event_raised e = Some msg -> read_only e ->
    outcome w (mkResponse 500 (error_body msg), record_call e w).

(** The store answers: [conn] is bound and no statement fails. *)
Definition store_up (w : world) : Prop :=
  conn_bound w = true /\ store_fault w = None.

(** ** Startup and further vocabulary *)

(** [os.getenv(name)] inside an f-string: an unset variable prints as None. *)
Definition fstring_env (v : option string) : string :=
  match v with
  | Some s => s
  | None => "None"
  end.

Definition DB_NAME : string := "finalProject".

(** [f"{DATABASE_URL}/{DB_NAME}?apikey={API_KEY}"] *)
Definition connection_string (database_url api_key : option string) : string :=
  (fstring_env database_url ++ "/" ++ DB_NAME ++ "?apikey=" ++ fstring_env api_key)%string.

(** The module-level [try: conn = sqlitecloud.connect(...) except Exception
    as e: print(...)]: whether [conn] ends up bound, and the line printed.
    What [sqlitecloud.connect] does with the connection string is an input. *)
Definition connect_at_startup (connect : string -> Py.result unit)
  (database_url api_key : option string) : bool * string :=
  match connect (connection_string database_url api_key) with
  | Py.Ok _ => (true, "Connected to SQLite Cloud")
  | Py.Raise e => (false, ("Failed to connect to SQLite Cloud: " ++ e)%string)
  end.

(** The routes that check their input before anything else. *)
Definition validates_input (rt : route) : bool :=
  match rt with
  | summarize | data_temperature_range | data_motion_range => true
  | _ => false
  end.

(** The routes that answer with a list of rows or buckets. *)
Definition returns_list (rt : route) : bool :=
  match rt with
  | summarize | data_temperature_peak | data_motion_peak => false
  | _ => true
  end.

(** A JSON array, a JSON object. *)
Definition is_array (v : Py.json) : bool :=
  match v with
  | Py.JArray _ => true
  | _ => false
  end.

Definition is_object (v : Py.json) : bool :=
  match v with
  | Py.JObject _ => true
  | _ => false
  end.

(** The three shapes of a response: 200 with a list (an object on the
    summary and peak routes); 400 with an error envelope, on a route that
    checks its input; 500 with an error envelope. *)
Definition well_shaped (rt : route) (r : response) : Prop :=
  (status r = 200%Z
   /\ (if returns_list rt then is_array (body r) else is_object (body r)) = true)
  \/ (status r = 400%Z /\ validates_input rt = true
      /\ exists msg, body r = error_body msg)
  \/ (status r = 500%Z /\ exists msg, body r = error_body msg).

(** The last character of a string. *)
Fixpoint last_char (s : string) : option ascii :=
  match s with
  | EmptyString => None
  | String c EmptyString => Some c
  | String _ rest => last_char rest
  end.

Definition first_char (s : string) : option ascii :=
  match s with
  | EmptyString => None
  | String c _ => Some c
  end.

Definition is_space_char (c : option ascii) : bool :=
  match c with
  | Some x => Py.isspace x
  | None => false
  end.

(** ** The machine's doubles

    Primitive binary64 floats, against which the rounding of [Sql.round]
    can be run. *)

Module Machine.

(** The float of a small integer. *)
Definition of_Z (z : Z) : PrimFloat.float :=
  FloatOps.SF2Prim
    match z with
    | Z0 => SpecFloat.S754_zero false
    | Zpos m => SpecFloat.S754_finite false m 0
    | Zneg m => SpecFloat.S754_finite true m 0
    end.

(** The largest double, (2^53 - 1) * 2^971. *)
Definition largest : PrimFloat.float :=
  FloatOps.SF2Prim (SpecFloat.S754_finite false 9007199254740991 971).

(** The smallest positive double, 2^-1074. *)
Definition smallest : PrimFloat.float :=
  FloatOps.SF2Prim (SpecFloat.S754_finite false 1 (-1074)).

(** A float as a double of the store. *)
Definition to_double (f : PrimFloat.float) : Sql.double :=
  match FloatOps.Prim2SF f with
  | SpecFloat.S754_zero _ => Sql.Finite 0
  | SpecFloat.S754_finite s m e =>
      let magnitude :=
        if (0 <=? e)%Z then inject_Z (Zpos m * 2 ^ e)
        else Zpos m # Z.to_pos (2 ^ (- e)) in
      Sql.Finite (if s then - Qred magnitude else Qred magnitude)
  | SpecFloat.S754_infinity s => Sql.Inf s
  | SpecFloat.S754_nan => Sql.NaN
  end.

(** Quotients of small integers, as floats and as rationals. *)
Definition fractions : list (Z * positive) :=
  [(1%Z, 10%positive); (2%Z, 10%positive); (3%Z, 10%positive);
   (1%Z, 3%positive); (2%Z, 3%positive); (125%Z, 6%positive);
   (43%Z, 2%positive); ((-7)%Z, 10%positive); ((-1)%Z, 3%positive);
   (22%Z, 7%positive); (1%Z, 1%positive); (0%Z, 5%positive);
   (9007199254740993%Z, 1%positive); (9007199254740991%Z, 1024%positive);
   (123456789%Z, 1000%positive); ((-215)%Z, 10%positive)].

Definition quotient (p : Z * positive) : PrimFloat.float :=
  PrimFloat.div (of_Z (fst p)) (of_Z (Zpos (snd p))).

End Machine.

(** ** A sample deployment

    Concrete date functions, store contents and service, on which the
    handlers can be run.  The date functions read timestamps written
    [YYYY-MM-DD HH:MM:SS] that name a real calendar day, and yield NULL on
    anything else. *)

Module Sample.

Definition digit (c : ascii) : option N :=
  let n := N_of_ascii c in
  if ((48 <=? n) && (n <=? 57))%N then Some (n - 48)%N else None.

Fixpoint digits (s : string) (acc : N) : option N :=
  match s with
  | EmptyString => Some acc
  | String c rest =>
      match digit c with
      | Some d => digits rest (10 * acc + d)%N
      | None => None
      end
  end.

Definition field (start len : nat) (s : string) : option N :=
  if (start + len <=? String.length s)%nat
  then digits (substring start len s) 0%N
  else None.

Definition leap (y : N) : bool :=
  ((y mod 4 =? 0) && negb (y mod 100 =? 0) || (y mod 400 =? 0))%N.

Definition month_lengths (y : N) : list N :=
  [31; if leap y then 29 else 28; 31; 30; 31; 30; 31; 31; 30; 31; 30; 31]%N.

(** Year, month and day of a timestamp that starts with a calendar day. *)
Definition calendar_day (s : string) : option (N * N * N) :=
  match field 0 4 s, field 5 2 s, field 8 2 s with
  | Some y, Some m, Some d =>
      if (String.eqb (substring 4 1 s) "-" && String.eqb (substring 7 1 s) "-"
          && (1 <=? m)%N && (m <=? 12)%N && (1 <=? d)%N
          && (d <=? nth (N.to_nat (m - 1)) (month_lengths y) 0)%N)%bool
      then Some (y, m, d)
      else None
  | _, _, _ => None
  end.

(** Zero-based day of the year. *)
Definition year_day (y m d : N) : N :=
  (fold_right N.add 0 (firstn (N.to_nat (m - 1)) (month_lengths y)) + d - 1)%N.

(** Days since the last Monday; the first of January of year 1 is one. *)
Definition since_monday (y m d : N) : N :=
  ((365 * (y - 1) + (y - 1) / 4 - (y - 1) / 100 + (y - 1) / 400 + year_day y m d)
   mod 7)%N.

Definition two_digits (n : N) : string :=
  String (ascii_of_N (48 + n / 10)) (String (ascii_of_N (48 + n mod 10)) EmptyString).

(** [DATE(x)] *)
Definition date (s : string) : Sql.label :=
  match calendar_day s with
  | Some _ => Some (substring 0 10 s)
  | None => None
  end.

(** [STRFTIME(format, x)] for the three formats of the gateway. *)
Definition strftime (format s : string) : Sql.label :=
  match calendar_day s with
  | Some (y, m, d) =>
      if String.eqb format "%Y-%m" then Some (substring 0 7 s)
      else if String.eqb format "%Y-%W" then
        Some (substring 0 4 s ++ "-"
                ++ two_digits ((year_day y m d + 7 - since_monday y m d) / 7))%string
      else if String.eqb format "%H" then
        match field 11 2 s with
        | Some h => if (h <? 24)%N then Some (substring 11 2 s) else None
        | None => None
        end
      else None
  | None => None
  end.

(** A stand-in for [json.dumps]; no property depends on the text it yields. *)
Definition dumps (v : Py.json) : string :=
  match v with
  | Py.JObject [] => "{}"
  | Py.JArray [] => "[]"
  | Py.JNull => "null"
  | _ => "{...}"
  end.

Definition not_iterable : string := "'NoneType' object is not iterable".

Definition readings : list TemperatureReading :=
  [mkReading 1 "2024-01-01 10:00:00" (21 # 1);
   mkReading 2 "2024-01-31 12:00:00" (43 # 2);
   mkReading 3 "2024-01-01 09:00:00" (20 # 1);
   mkReading 4 "2024-02-05 23:30:00" (43 # 2)].

Definition events : list MotionEvent :=
  [mkEvent 1 "2024-01-01 10:00:00" 1;
   mkEvent 2 "2024-01-02 10:15:00" 1;
   mkEvent 3 "2024-01-01 11:00:00" 1].

Definition store : database := mkDatabase readings events.

(** A service that answers every prompt with the same text. *)
Definition service (text : string) : chat_request -> Py.result chat_completion :=
  fun _ => Py.Ok (mkCompletion [Some text]).

(** The store answers, [conn] is bound. *)
Definition up : world := mkWorld true None store (service "  Mild and quiet. ") [].

(** The store fails on every statement. *)
Definition down : world :=
  mkWorld true (Some "connection lost") store (fun _ => Py.Raise "rate limited") [].

(** Empty tables. *)
Definition empty : world := mkWorld true None (mkDatabase [] []) (service "") [].



Definition get : request := mkRequest (Py.Raise "415 Unsupported Media Type") [].

Definition january : request :=
  mkRequest (Py.Raise "415 Unsupported Media Type")
    [("start_date", "2024-01-01"); ("end_date", "2024-01-31")].

Definition post (v : Py.json) : request := mkRequest (Py.Ok v) [].

End Sample.

(** ** The model at work *)

Example strip_example : Py.strip "  Mild and quiet.
" = "Mild and quiet.".
Proof. reflexivity. Qed.

Example truthy_examples :
  map Py.truthy
    [Py.JNull; Py.JObject []; Py.JArray []; Py.JString ""; Py.JNumber (Py.Int 0);
     Py.JNumber (Py.Float (0 # 5)); Py.JBool false;
     Py.JObject [("temp", Py.JNull)]; Py.JNumber Py.NaN; Py.JString " "]
  = [false; false; false; false; false; false; false; true; true; true].
Proof. reflexivity. Qed.

(** The reading of 31 January at noon sorts after the bound "2024-01-31". *)
Example january_readings :
  fst (get_temperature_in_range Sample.january Sample.up)
  = mkResponse 200
      (Py.JArray [reading_object (mkReading 1 "2024-01-01 10:00:00" (21 # 1));
                  reading_object (mkReading 3 "2024-01-01 09:00:00" (20 # 1))]).
Proof. reflexivity. Qed.

Example weekly_averages :
  body (fst (get_weekly_temperature_average Sample.strftime Sample.get Sample.up))
  = Py.JArray [average_object "week" (Some "2024-06", Sql.Finite (43 # 2));
               average_object "week" (Some "2024-05", Sql.Finite (43 # 2));
               average_object "week" (Some "2024-01", Sql.Finite (41 # 2))].
Proof. reflexivity. Qed.

Example hourly_counts :
  body (fst (get_motion_by_hour Sample.strftime Sample.get Sample.up))
  = Py.JArray [count_object "hour" (Some "10", 2%nat);
               count_object "hour" (Some "11", 1%nat)].
Proof. reflexivity. Qed.

Example busiest_sample_day :
  fst (get_peak_motion Sample.date Sample.not_iterable Sample.get Sample.up)
  = mkResponse 200 (count_object "date" (Some "2024-01-01", 2%nat)).
Proof. reflexivity. Qed.

Example unbound_connection :
  get_temperature_data Sample.get
    (mkWorld false None Sample.store (Sample.service "") [])
  = (mkResponse 500 (error_body "name 'conn' is not defined"),
     mkWorld false None Sample.store (Sample.service "") []).
Proof. reflexivity. Qed.

Example failing_store_is_asked_once :
  trace (snd (get_motion_data Sample.get Sample.down))
  = [SqlCall "SELECT * FROM motion ORDER BY timestamp DESC LIMIT 100" []
       (Some "connection lost")].
Proof. reflexivity. Qed.

(** The rounding is the machine's: division and addition of doubles give
    what [Sql.round], [Sql.double_div] and [Sql.double_add] give, also at
    the two ends of the range. *)
Example round_is_machine_division :
  map (fun p => Machine.to_double (Machine.quotient p)) Machine.fractions
  = map (fun p => Sql.round (fst p # snd p)) Machine.fractions.
Proof. vm_compute. reflexivity. Qed.

Example double_add_is_machine_addition :
  map (fun p => map (fun q => Machine.to_double
                                (PrimFloat.add (Machine.quotient p) (Machine.quotient q)))
                  Machine.fractions)
    Machine.fractions
  = map (fun p => map (fun q => Sql.double_add
                                  (Machine.to_double (Machine.quotient p))
                                  (Machine.to_double (Machine.quotient q)))
                    Machine.fractions)
      Machine.fractions.
Proof. vm_compute. reflexivity. Qed.

Example double_div_is_machine_division :
  map (fun p => map (fun q => Machine.to_double
                                (PrimFloat.div (Machine.quotient p)
                                   (Machine.of_Z (Zpos (snd q)))))
                  Machine.fractions)
    Machine.fractions
  = map (fun p => map (fun q => Sql.double_div
                                  (Machine.to_double (Machine.quotient p))
                                  (Sql.round (inject_Z (Zpos (snd q)))))
                    Machine.fractions)
      Machine.fractions.
Proof. vm_compute. reflexivity. Qed.

Example ends_of_the_range :
  [Machine.to_double (PrimFloat.add Machine.largest Machine.largest);
   Machine.to_double (PrimFloat.add Machine.largest (Machine.of_Z 1));
   Machine.to_double (PrimFloat.div Machine.smallest (Machine.of_Z 2));
   Machine.to_double (PrimFloat.div Machine.smallest (Machine.of_Z 3));
   Machine.to_double (PrimFloat.div (PrimFloat.add Machine.largest Machine.largest)
                        (Machine.of_Z 2))]
  = [Sql.double_add (Machine.to_double Machine.largest)
       (Machine.to_double Machine.largest);
     Sql.double_add (Machine.to_double Machine.largest) (Sql.round 1);
     Sql.double_div (Machine.to_double Machine.smallest) (Sql.round 2);
     Sql.double_div (Machine.to_double Machine.smallest) (Sql.round 3);
     Sql.double_div (Sql.Inf false) (Sql.round 2)].
Proof. vm_compute. reflexivity. Qed.

(** ** Orders *)

Lemma ascii_compare_refl (c : ascii) : Ascii.compare c c = Eq.
Proof. unfold Ascii.compare. apply N.compare_refl. Qed.

Lemma string_compare_refl (s : string) : String.compare s s = Eq.
Proof.
  induction s as [| c s IH]; simpl; [reflexivity |].
  now rewrite ascii_compare_refl.
Qed.

Lemma string_leb_refl (s : string) : String.leb s s = true.
Proof. unfold String.leb. now rewrite string_compare_refl. Qed.

Lemma string_leb_trans (a b c : string) :
  String.leb a b = true -> String.leb b c = true -> String.leb a c = true.
Proof.
  revert b c.
  induction a as [| x a IH]; intros [| y b] [| z c]; simpl; try easy.
  unfold String.leb in *; simpl.
  unfold Ascii.compare.
  destruct (N.compare_spec (N_of_ascii x) (N_of_ascii y)) as [Exy | Lxy | Gxy];
    destruct (N.compare_spec (N_of_ascii y) (N_of_ascii z)) as [Eyz | Lyz | Gyz];
    destruct (N.compare_spec (N_of_ascii x) (N_of_ascii z)) as [Exz | Lxz | Gxz];
    try easy; try lia.
  apply IH.
Qed.

Lemma label_eqb_eq (a b : Sql.label) : Sql.label_eqb a b = true <-> a = b.
Proof.
  destruct a as [x |], b as [y |]; simpl; try easy.
  rewrite String.eqb_eq. split; congruence.
Qed.

Lemma label_eqb_refl (a : Sql.label) : Sql.label_eqb a a = true.
Proof. now apply label_eqb_eq. Qed.

Lemma label_eqb_neq (a b : Sql.label) : Sql.label_eqb a b = false <-> a <> b.
Proof.
  rewrite <- label_eqb_eq. destruct (Sql.label_eqb a b); split; congruence.
Qed.

Lemma label_leb_total (a b : Sql.label) :
  Sql.label_leb a b = true \/ Sql.label_leb b a = true.
Proof.
  destruct a as [x |], b as [y |]; simpl; auto.
  apply String.leb_total.
Qed.

Lemma label_leb_trans (a b c : Sql.label) :
  Sql.label_leb a b = true -> Sql.label_leb b c = true -> Sql.label_leb a c = true.
Proof.
  destruct a as [x |], b as [y |], c as [z |]; simpl; try easy.
  apply string_leb_trans.
Qed.

Lemma Qle_bool_total (a b : Q) : Qle_bool a b = true \/ Qle_bool b a = true.
Proof.
  rewrite !Qle_bool_iff.
  destruct (Qlt_le_dec a b) as [H | H]; [left; now apply Qlt_le_weak | now right].
Qed.

Lemma Qle_bool_trans (a b c : Q) :
  Qle_bool a b = true -> Qle_bool b c = true -> Qle_bool a c = true.
Proof. rewrite !Qle_bool_iff. apply Qle_trans. Qed.

Lemma nat_leb_total (a b : nat) : Nat.leb a b = true \/ Nat.leb b a = true.
Proof. rewrite !Nat.leb_le. lia. Qed.

Lemma nat_leb_trans (a b c : nat) :
  Nat.leb a b = true -> Nat.leb b c = true -> Nat.leb a c = true.
Proof. rewrite !Nat.leb_le. lia. Qed.

(** ** ORDER BY and LIMIT *)

Section OrderBy.

Context {A : Type}.
Variable before : A -> A -> bool.
Hypothesis before_total : forall x y, before x y = true \/ before y x = true.
Hypothesis before_trans :
  forall x y z, before x y = true -> before y z = true -> before x z = true.

Let R (x y : A) : Prop := before x y = true.

Lemma insert_by_perm (x : A) (l : list A) :
  Permutation (Sql.insert_by before x l) (x :: l).
Proof.
  induction l as [| y l IH]; simpl; [reflexivity |].
  destruct (before x y); [reflexivity |].
  rewrite IH. apply perm_swap.
Qed.

Lemma order_by_perm (l : list A) : Permutation (Sql.order_by before l) l.
Proof.
  induction l as [| x l IH]; simpl; [reflexivity |].
  rewrite insert_by_perm. now constructor.
Qed.

Lemma insert_by_sorted (x : A) (l : list A) :
  StronglySorted R l -> StronglySorted R (Sql.insert_by before x l).
Proof.
  induction 1 as [| y l Hl IH Hy]; simpl.
  - repeat constructor.
  - destruct (before x y) eqn:Hxy.
    + constructor; [now constructor |].
      constructor; [exact Hxy |].
      rewrite Forall_forall in *. intros z Hz.
      apply before_trans with y; [exact Hxy | now apply Hy].
    + constructor; [exact IH |].
      rewrite Forall_forall in *. intros z Hz.
      apply (Permutation_in _ (insert_by_perm x l)) in Hz.
      destruct Hz as [<- | Hz]; [| now apply Hy].
      destruct (before_total x y) as [H | H]; [congruence | exact H].
Qed.

Lemma order_by_sorted (l : list A) : StronglySorted R (Sql.order_by before l).
Proof.
  induction l as [| x l IH]; simpl; [constructor | now apply insert_by_sorted].
Qed.

Lemma order_by_in (x : A) (l : list A) : In x (Sql.order_by before l) <-> In x l.
Proof.
  split; apply Permutation_in; [| symmetry]; apply order_by_perm.
Qed.

End OrderBy.

Lemma sorted_split {A : Type} (R : A -> A -> Prop) (l1 l2 : list A) :
  StronglySorted R (l1 ++ l2) ->
  StronglySorted R l1 /\ forall a b, In a l1 -> In b l2 -> R a b.
Proof.
  induction l1 as [| x l1 IH]; simpl; intros H.
  - split; [constructor | easy].
  - inversion H as [| ? ? Hs Hf]; subst.
    destruct (IH Hs) as [H1 H2].
    rewrite Forall_forall in Hf.
    split.
    + constructor; [exact H1 |].
      rewrite Forall_forall. intros z Hz. apply Hf, in_or_app. now left.
    + intros a b [<- | Ha] Hb; [apply Hf, in_or_app; now right | now apply H2].
Qed.

(** What [LIMIT n] keeps of an ordered list: a sorted prefix of at most [n]
    rows, every row left out standing after every row kept. *)
Lemma limit_sorted {A : Type} (R : A -> A -> Prop) (n : nat) (l : list A) :
  StronglySorted R l ->
  (List.length (Sql.limit n l) <= n)%nat
  /\ Sql.limit n l ++ skipn n l = l
  /\ StronglySorted R (Sql.limit n l)
  /\ (forall a b, In a (Sql.limit n l) -> In b (skipn n l) -> R a b)
  /\ (skipn n l = [] \/ List.length (Sql.limit n l) = n).
Proof.
  intros H. unfold Sql.limit.
  pose proof (firstn_skipn n l) as E.
  rewrite <- E in H. apply sorted_split in H. destruct H as [H1 H2].
  repeat split; auto.
  - apply firstn_le_length.
  - destruct (Nat.le_gt_cases (List.length l) n) as [Hle | Hgt].
    + left. now apply skipn_all2.
    + right. apply firstn_length_le. lia.
Qed.

(** ** GROUP BY *)

Section GroupBy.

Context {A Acc : Type}.
Variable key : A -> Sql.label.
Variable step : Acc -> A -> Acc.
Variable init : Acc.

Lemma group_of_feed (k k' : Sql.label) (f : Acc -> Acc) (groups : list (Sql.label * Acc)) :
  group_of k (Sql.feed k' f init groups) =
  if Sql.label_eqb k' k
  then Some (f (match group_of k' groups with Some a => a | None => init end))
  else group_of k groups.
Proof.
  induction groups as [| [k0 a0] groups IH]; simpl.
  - destruct (Sql.label_eqb k' k); reflexivity.
  - destruct (Sql.label_eqb k0 k') eqn:E0; simpl.
    + apply label_eqb_eq in E0. subst k0.
      destruct (Sql.label_eqb k' k); reflexivity.
    + destruct (Sql.label_eqb k0 k) eqn:E1.
      * apply label_eqb_eq in E1. subst k0.
        destruct (Sql.label_eqb k' k) eqn:E2; [| reflexivity].
        apply label_eqb_eq in E2. subst k'. now rewrite label_eqb_refl in E0.
      * exact IH.
Qed.

Lemma group_of_in (k : Sql.label) (groups : list (Sql.label * Acc)) :
  In k (map fst groups) <-> group_of k groups <> None.
Proof.
  induction groups as [| [k0 a0] groups IH]; simpl; [easy |].
  destruct (Sql.label_eqb k0 k) eqn:E.
  - apply label_eqb_eq in E. split; [easy | now left].
  - apply label_eqb_neq in E. rewrite <- IH. split; [intros [H | H]; easy | now right].
Qed.

Lemma group_of_nodup (k : Sql.label) (a : Acc) (groups : list (Sql.label * Acc)) :
  NoDup (map fst groups) -> (In (k, a) groups <-> group_of k groups = Some a).
Proof.
  induction groups as [| [k0 a0] groups IH]; simpl; intros Hnd; [easy |].
  inversion Hnd as [| ? ? Hnotin Hnd']; subst.
  destruct (Sql.label_eqb k0 k) eqn:E.
  - apply label_eqb_eq in E. subst k0. split.
    + intros [H | H]; [congruence |].
      exfalso. apply Hnotin. now apply (in_map fst) in H.
    + intros H. left. congruence.
  - apply label_eqb_neq in E. rewrite <- (IH Hnd'). split.
    + intros [H | H]; [congruence | exact H].
    + now right.
Qed.

Lemma feed_keys (k : Sql.label) (f : Acc -> Acc) (groups : list (Sql.label * Acc)) :
  map fst (Sql.feed k f init groups) =
  match group_of k groups with
  | Some _ => map fst groups
  | None => map fst groups ++ [k]
  end.
Proof.
  induction groups as [| [k0 a0] groups IH]; simpl; [reflexivity |].
  destruct (Sql.label_eqb k0 k); simpl; [reflexivity |].
  rewrite IH. now destruct (group_of k groups).
Qed.

Lemma feed_nodup (k : Sql.label) (f : Acc -> Acc) (groups : list (Sql.label * Acc)) :
  NoDup (map fst groups) -> NoDup (map fst (Sql.feed k f init groups)).
Proof.
  intros Hnd. rewrite feed_keys.
  destruct (group_of k groups) eqn:E; [exact Hnd |].
  apply NoDup_app; [exact Hnd | repeat constructor; easy |].
  intros x Hx [<- | []]. apply group_of_in in Hx. congruence.
Qed.

Lemma group_by_snoc (l : list A) (x : A) :
  Sql.group_by key step init (l ++ [x]) =
  Sql.feed (key x) (fun a => step a x) init (Sql.group_by key step init l).
Proof. unfold Sql.group_by. now rewrite fold_left_app. Qed.

Lemma group_by_nodup (l : list A) : NoDup (map fst (Sql.group_by key step init l)).
Proof.
  induction l as [| x l IH] using rev_ind; [constructor |].
  rewrite group_by_snoc. now apply feed_nodup.
Qed.

(** The accumulator of a bucket is the fold of [step] over the rows of the
    bucket, in scan order; a bucket has a group when a row maps to it. *)
Lemma group_of_group_by (k : Sql.label) (l : list A) :
  group_of k (Sql.group_by key step init l) =
  match in_bucket key k l with
  | [] => None
  | rows => Some (fold_left step rows init)
  end.
Proof.
  induction l as [| x l IH] using rev_ind; [reflexivity |].
  rewrite group_by_snoc, group_of_feed.
  unfold in_bucket in *. rewrite filter_app. simpl.
  destruct (Sql.label_eqb (key x) k) eqn:E.
  - apply label_eqb_eq in E. rewrite E, IH.
    destruct (filter _ l) as [| r rows]; simpl; [reflexivity |].
    now rewrite fold_left_app.
  - now rewrite app_nil_r.
Qed.

Lemma group_by_keys (k : Sql.label) (l : list A) :
  In k (map fst (Sql.group_by key step init l)) <-> exists r, In r l /\ key r = k.
Proof.
  rewrite group_of_in, group_of_group_by.
  split.
  - intros H. destruct (in_bucket key k l) as [| r rows] eqn:E; [easy |].
    exists r. assert (Hr : In r (in_bucket key k l)) by (rewrite E; now left).
    apply filter_In in Hr. now rewrite label_eqb_eq in Hr.
  - intros [r [Hr Hk]].
    assert (Hin : In r (in_bucket key k l)).
    { apply filter_In. split; [exact Hr | now apply label_eqb_eq]. }
    destruct (in_bucket key k l); [easy | discriminate].
Qed.

Lemma group_by_value (k : Sql.label) (a : Acc) (l : list A) :
  In (k, a) (Sql.group_by key step init l) ->
  a = fold_left step (in_bucket key k l) init /\ in_bucket key k l <> [].
Proof.
  intros H. apply group_of_nodup in H; [| apply group_by_nodup].
  rewrite group_of_group_by in H.
  destruct (in_bucket key k l); [easy |]. split; [congruence | easy].
Qed.

End GroupBy.

(** ** COUNT and AVG *)

Lemma count_fold {A : Type} (rows : list A) (n : nat) :
  fold_left Sql.count_step rows n = (n + List.length rows)%nat.
Proof.
  revert n. induction rows as [| r rows IH]; intros n; simpl; [lia |].
  rewrite IH. unfold Sql.count_step. lia.
Qed.

Lemma avg_fold {A : Type} (x : A -> Q) (rows : list A) (acc : Sql.double * nat) :
  fold_left (Sql.avg_step x) rows acc =
  (fold_left (fun s y => Sql.double_add s (Sql.round y)) (map x rows) (fst acc),
   (snd acc + List.length rows)%nat).
Proof.
  revert acc. induction rows as [| r rows IH]; intros [s n]; simpl.
  - now rewrite Nat.add_0_r.
  - rewrite IH. unfold Sql.avg_step; simpl. f_equal. lia.
Qed.

(** The accumulators of AVG yield the average in doubles of the values fed. *)
Lemma avg_is_float_average {A : Type} (x : A -> Q) (rows : list A) :
  Sql.avg_final (fold_left (Sql.avg_step x) rows (Sql.Finite 0, 0%nat))
  = float_average (map x rows).
Proof.
  rewrite avg_fold. unfold Sql.avg_final, float_average, float_sum. simpl.
  now rewrite length_map.
Qed.

Section Buckets.

Variable bucket : string -> Sql.label.

Lemma average_groups_keys (d : database) :
  map fst (average_groups bucket d) =
  map fst (Sql.group_by (fun r => bucket (reading_timestamp r))
             (Sql.avg_step reading_temperature) (Sql.Finite 0, 0%nat)
             (temperature d)).
Proof. unfold average_groups. rewrite map_map. reflexivity. Qed.

Lemma average_groups_spec (d : database) (groups : list (Sql.label * Sql.double)) :
  Permutation groups (average_groups bucket d) ->
  NoDup (map fst groups)
  /\ (forall b, In b (map fst groups) <->
                exists r, In r (temperature d) /\ bucket (reading_timestamp r) = b)
  /\ (forall b v, In (b, v) groups ->
        v = float_average
              (map reading_temperature
                 (in_bucket (fun r => bucket (reading_timestamp r)) b
                    (temperature d)))).
Proof.
  intros Hp.
  pose proof (Permutation_map fst Hp) as Hk. rewrite average_groups_keys in Hk.
  split; [| split].
  - apply (Permutation_NoDup (Permutation_sym Hk)), group_by_nodup.
  - intros b.
    rewrite <- (group_by_keys _ (Sql.avg_step reading_temperature)
                  (Sql.Finite 0, 0%nat)).
    split; apply Permutation_in; [exact Hk | now symmetry].
  - intros b v Hin. apply (Permutation_in _ Hp) in Hin.
    unfold average_groups in Hin. apply in_map_iff in Hin.
    destruct Hin as [[b' acc] [E Hin]]. simpl in E. injection E as -> <-.
    apply group_by_value in Hin. destruct Hin as [-> _].
    apply avg_is_float_average.
Qed.

Lemma count_groups_spec (d : database) (groups : list (Sql.label * nat)) :
  Permutation groups (count_groups bucket d) ->
  NoDup (map fst groups)
  /\ (forall b, In b (map fst groups) <->
                exists e, In e (motion d) /\ bucket (event_timestamp e) = b)
  /\ (forall b n, In (b, n) groups ->
        n = List.length (in_bucket (fun e => bucket (event_timestamp e)) b (motion d))).
Proof.
  intros Hp. pose proof (Permutation_map fst Hp) as Hk.
  split; [| split].
  - apply (Permutation_NoDup (Permutation_sym Hk)), group_by_nodup.
  - intros b. unfold count_groups in Hk.
    rewrite <- (group_by_keys _ Sql.count_step 0%nat).
    split; apply Permutation_in; [exact Hk | now symmetry].
  - intros b n Hin. apply (Permutation_in _ Hp) in Hin.
    apply group_by_value in Hin. destruct Hin as [-> _].
    now rewrite count_fold.
Qed.

End Buckets.

Lemma by_label_desc_perm {V : Type} (groups : list (Sql.label * V)) :
  Permutation (by_label_desc groups) groups.
Proof. apply order_by_perm. Qed.

Lemma by_label_asc_perm {V : Type} (groups : list (Sql.label * V)) :
  Permutation (by_label_asc groups) groups.
Proof. apply order_by_perm. Qed.

Lemma by_label_desc_sorted {V : Type} (groups : list (Sql.label * V)) :
  labels_descending (by_label_desc groups).
Proof.
  apply (order_by_sorted (Sql.desc Sql.label_leb fst)); unfold Sql.desc.
  - intros x y. apply label_leb_total.
  - intros x y z Hxy Hyz. now apply label_leb_trans with (fst y).
Qed.

Lemma by_label_asc_sorted {V : Type} (groups : list (Sql.label * V)) :
  labels_ascending (by_label_asc groups).
Proof.
  apply (order_by_sorted (Sql.asc Sql.label_leb fst)); unfold Sql.asc.
  - intros x y. apply label_leb_total.
  - intros x y z Hxy Hyz. now apply label_leb_trans with (fst y).
Qed.

Lemma newest_first_order_by {A : Type} (ts : A -> string) (rows : list A) :
  newest_first ts (Sql.order_by (Sql.desc String.leb ts) rows).
Proof.
  apply (order_by_sorted (Sql.desc String.leb ts)); unfold Sql.desc.
  - intros x y. apply String.leb_total.
  - intros x y z Hxy Hyz. now apply string_leb_trans with (ts y).
Qed.

(** ** Running a handler *)

Lemma set_db_same (w : world) : set_db (db w) w = w.
Proof. now destruct w. Qed.

Lemma calls_made_none (w : world) : calls_made w w = [].
Proof. unfold calls_made. apply skipn_all. Qed.

Lemma calls_made_one (e : event) (w : world) : calls_made w (record_call e w) = [e].
Proof.
  unfold calls_made, record_call; simpl.
  rewrite skipn_app, skipn_all, Nat.sub_diag. reflexivity.
Qed.

(** The three ways a list route ends: [conn] unbound, the store failing, the
    store answering. *)
Lemma fetch_list_run (text : string) (bound : list (option string))
  (q : database -> Sql.rowset) (w : world) :
  try_except (fetch_list (select text bound q)) w =
  if conn_bound w then
    match store_fault w with
    | Some msg =>
        (mkResponse 500 (error_body msg), record_call (SqlCall text bound (Some msg)) w)
    | None =>
        (ok (jsonify_list
               (map (Py.dict_zip (Sql.description (q (db w)))) (Sql.tuples (q (db w))))),
         record_call (SqlCall text bound None) w)
    end
  else (mkResponse 500 (error_body "name 'conn' is not defined"), w).
Proof.
  unfold try_except, fetch_list, bind, conn_cursor, cursor_execute, select; simpl.
  destruct (conn_bound w); [| reflexivity].
  destruct (store_fault w); [reflexivity |].
  now rewrite set_db_same.
Qed.

Lemma fetch_single_run (none_not_iterable text : string)
  (bound : list (option string)) (q : database -> Sql.rowset) (w : world) :
  try_except (fetch_single none_not_iterable (select text bound q)) w =
  if conn_bound w then
    match store_fault w with
    | Some msg =>
        (mkResponse 500 (error_body msg), record_call (SqlCall text bound (Some msg)) w)
    | None =>
        (match Sql.tuples (q (db w)) with
         | [] => mkResponse 500 (error_body none_not_iterable)
         | row :: _ => ok (jsonify_dict (Py.dict_zip (Sql.description (q (db w))) row))
         end,
         record_call (SqlCall text bound None) w)
    end
  else (mkResponse 500 (error_body "name 'conn' is not defined"), w).
Proof.
  unfold try_except, fetch_single, bind, conn_cursor, cursor_execute, select; simpl.
  destruct (conn_bound w); [| reflexivity].
  destruct (store_fault w); [reflexivity |].
  rewrite set_db_same. unfold fetchone. simpl.
  now destruct (Sql.tuples (q (db w))).
Qed.

(** A list route that answers 200 got its rows from the store. *)
Lemma fetch_list_success (text : string) (bound : list (option string))
  (q : database -> Sql.rowset) (w : world) :
  status (fst (try_except (fetch_list (select text bound q)) w)) = 200%Z ->
  body (fst (try_except (fetch_list (select text bound q)) w)) =
  jsonify_list (map (Py.dict_zip (Sql.description (q (db w)))) (Sql.tuples (q (db w)))).
Proof.
  rewrite fetch_list_run.
  destruct (conn_bound w); [| discriminate].
  destruct (store_fault w); [discriminate | reflexivity].
Qed.

Lemma fetch_single_success (none_not_iterable text : string)
  (bound : list (option string)) (q : database -> Sql.rowset) (w : world) :
  status (fst (try_except (fetch_single none_not_iterable (select text bound q)) w)) = 200%Z ->
  exists row rest,
    Sql.tuples (q (db w)) = row :: rest
    /\ body (fst (try_except (fetch_single none_not_iterable (select text bound q)) w)) =
       jsonify_dict (Py.dict_zip (Sql.description (q (db w))) row).
Proof.
  rewrite fetch_single_run.
  destruct (conn_bound w); [| discriminate].
  destruct (store_fault w); [discriminate |].
  destruct (Sql.tuples (q (db w))) as [| row rest]; [discriminate |].
  intros _. now exists row, rest.
Qed.

(** The dicts built from the rows are the objects of the vocabulary. *)
Lemma reading_rows_json (rows : list TemperatureReading) :
  jsonify_list (map (Py.dict_zip temperature_columns) (map reading_tuple rows)) =
  Py.JArray (map reading_object rows).
Proof. unfold jsonify_list. now rewrite !map_map. Qed.

Lemma event_rows_json (rows : list MotionEvent) :
  jsonify_list (map (Py.dict_zip motion_columns) (map event_tuple rows)) =
  Py.JArray (map event_object rows).
Proof. unfold jsonify_list. now rewrite !map_map. Qed.

Lemma average_row_json (key : string) (g : Sql.label * Sql.double) :
  String.eqb key "average_temp" = false ->
  jsonify_dict (Py.dict_zip [key; "average_temp"] (average_tuple g)) =
  average_object key g.
Proof.
  intros H. unfold Py.dict_zip, jsonify_dict, average_object. simpl. now rewrite H.
Qed.

Lemma count_row_json (key : string) (g : Sql.label * nat) :
  String.eqb key "motion_count" = false ->
  jsonify_dict (Py.dict_zip [key; "motion_count"] (count_tuple g)) =
  count_object key g.
Proof.
  intros H. unfold Py.dict_zip, jsonify_dict, count_object. simpl. now rewrite H.
Qed.

Lemma average_rows_json (key : string) (groups : list (Sql.label * Sql.double)) :
  String.eqb key "average_temp" = false ->
  jsonify_list (map (Py.dict_zip [key; "average_temp"]) (map average_tuple groups)) =
  Py.JArray (map (average_object key) groups).
Proof.
  intros H. unfold jsonify_list. rewrite !map_map. f_equal.
  apply map_ext. intros g. now apply average_row_json.
Qed.

Lemma count_rows_json (key : string) (groups : list (Sql.label * nat)) :
  String.eqb key "motion_count" = false ->
  jsonify_list (map (Py.dict_zip [key; "motion_count"]) (map count_tuple groups)) =
  Py.JArray (map (count_object key) groups).
Proof.
  intros H. unfold jsonify_list. rewrite !map_map. f_equal.
  apply map_ext. intros g. now apply count_row_json.
Qed.

(** ** The raw fetch routes *)

Lemma latest_by_timestamp_spec {A : Type} (ts : A -> string) (object : A -> Py.json)
  (table : list A) (resp : response) :
  body resp = Py.JArray (map object (latest_by_timestamp ts table)) ->
  latest_hundred ts object table resp.
Proof.
  intros Hbody. unfold latest_by_timestamp in Hbody.
  set (sorted := Sql.order_by (Sql.desc String.leb ts) table) in *.
  destruct (limit_sorted _ 100 sorted (newest_first_order_by ts table))
    as (Hlen & Happ & Hsorted & Hcut & Hfull).
  exists (Sql.limit 100 sorted), (skipn 100 sorted).
  repeat split; auto.
  rewrite Happ. apply order_by_perm.
Qed.

(** C4: a successful GET /data/temperature or GET /data/motion returns an
    array of at most 100 objects, sorted by timestamp descending, that holds
    the most recently timestamped rows of the table, each with all native
    columns (id, timestamp, and temperature or motion_detected). *)
Theorem raw_fetch_latest_hundred (req : request) (w : world) :
  (status (fst (get_temperature_data req w)) = 200%Z ->
   latest_hundred reading_timestamp reading_object (temperature (db w))
     (fst (get_temperature_data req w)))
  /\ (status (fst (get_motion_data req w)) = 200%Z ->
      latest_hundred event_timestamp event_object (motion (db w))
        (fst (get_motion_data req w))).
Proof.
  split; intros H.
  - apply latest_by_timestamp_spec.
    unfold get_temperature_data, temperature_latest in *.
    apply fetch_list_success in H. rewrite H. apply reading_rows_json.
  - apply latest_by_timestamp_spec.
    unfold get_motion_data, motion_latest in *.
    apply fetch_list_success in H. rewrite H. apply event_rows_json.
Qed.

Lemma raw_fetch_latest_hundred_witness :
  latest_hundred reading_timestamp reading_object Sample.readings
    (fst (get_temperature_data Sample.get Sample.up))
  /\ latest_hundred event_timestamp event_object Sample.events
       (fst (get_motion_data Sample.get Sample.up)).
Proof.
  destruct (raw_fetch_latest_hundred Sample.get Sample.up) as [Ht Hm].
  split; [apply Ht | apply Hm]; reflexivity.
Defined.

(** ** The range routes *)

Lemma rows_between_spec {A : Type} (ts : A -> string) (object : A -> Py.json)
  (lo hi : string) (table : list A) (resp : response) :
  body resp = Py.JArray (map object (rows_between ts (Some lo) (Some hi) table)) ->
  rows_in_range ts object lo hi table resp.
Proof.
  intros Hbody. exists (rows_between ts (Some lo) (Some hi) table).
  unfold rows_between, Sql.between_bound, Sql.between in *.
  repeat split.
  - exact Hbody.
  - apply order_by_perm.
  - rewrite order_by_in in H. now apply filter_In in H.
  - rewrite order_by_in in H. apply filter_In in H.
    destruct H as [_ H]. now apply andb_true_iff in H.
  - rewrite order_by_in in H. apply filter_In in H.
    destruct H as [_ H]. now apply andb_true_iff in H.
  - intros (Hin & Hlo & Hhi). rewrite order_by_in. apply filter_In.
    split; [exact Hin | now rewrite Hlo, Hhi].
  - apply newest_first_order_by.
Qed.

(** What a range route does with its two parameters. *)
Lemma temperature_in_range_run (req : request) (w : world) :
  get_temperature_in_range req w =
  if Py.str_truthy (args_get "start_date" (request_args req))
     && Py.str_truthy (args_get "end_date" (request_args req))
  then try_except (fetch_list (temperature_between
                                 (args_get "start_date" (request_args req))
                                 (args_get "end_date" (request_args req)))) w
  else (mkResponse 400 (error_body "Start date and end date are required"), w).
Proof.
  unfold get_temperature_in_range.
  destruct (Py.str_truthy (args_get "start_date" (request_args req)));
    destruct (Py.str_truthy (args_get "end_date" (request_args req))); reflexivity.
Qed.

Lemma motion_in_range_run (req : request) (w : world) :
  get_motion_in_range req w =
  if Py.str_truthy (args_get "start_date" (request_args req))
     && Py.str_truthy (args_get "end_date" (request_args req))
  then try_except (fetch_list (motion_between
                                 (args_get "start_date" (request_args req))
                                 (args_get "end_date" (request_args req)))) w
  else (mkResponse 400 (error_body "Start date and end date are required"), w).
Proof.
  unfold get_motion_in_range.
  destruct (Py.str_truthy (args_get "start_date" (request_args req)));
    destruct (Py.str_truthy (args_get "end_date" (request_args req))); reflexivity.
Qed.

(** C3: a successful GET /data/temperature/range or /data/motion/range with
    both bounds present returns exactly the rows of the table whose
    timestamp lies between start_date and end_date, both included (every
    such row, and only such rows), newest first.  The comparison is the
    store's comparison of texts. *)
Theorem range_fetch_exact (req : request) (w : world) (lo hi : string) :
  args_get "start_date" (request_args req) = Some lo ->
  args_get "end_date" (request_args req) = Some hi ->
  (status (fst (get_temperature_in_range req w)) = 200%Z ->
   rows_in_range reading_timestamp reading_object lo hi (temperature (db w))
     (fst (get_temperature_in_range req w)))
  /\ (status (fst (get_motion_in_range req w)) = 200%Z ->
      rows_in_range event_timestamp event_object lo hi (motion (db w))
        (fst (get_motion_in_range req w))).
Proof.
  intros Hlo Hhi.
  rewrite temperature_in_range_run, motion_in_range_run, Hlo, Hhi.
  destruct (Py.str_truthy (Some lo) && Py.str_truthy (Some hi));
    [| split; discriminate].
  split; intros H; apply rows_between_spec.
  - unfold temperature_between in *.
    apply fetch_list_success in H. rewrite H. apply reading_rows_json.
  - unfold motion_between in *.
    apply fetch_list_success in H. rewrite H. apply event_rows_json.
Qed.

Lemma range_fetch_exact_witness :
  rows_in_range reading_timestamp reading_object "2024-01-01" "2024-01-31"
    Sample.readings (fst (get_temperature_in_range Sample.january Sample.up))
  /\ rows_in_range event_timestamp event_object "2024-01-01" "2024-01-31"
       Sample.events (fst (get_motion_in_range Sample.january Sample.up)).
Proof.
  destruct (range_fetch_exact Sample.january Sample.up "2024-01-01" "2024-01-31"
              eq_refl eq_refl) as [Ht Hm].
  split; [apply Ht | apply Hm]; reflexivity.
Defined.

Lemma absent_or_empty_falsy (p : option string) :
  absent_or_empty p -> Py.str_truthy p = false.
Proof. now intros [-> | ->]. Qed.

(** C2: a GET /data/temperature/range or /data/motion/range request whose
    start_date or end_date parameter is absent or empty is answered with
    status 400 and a body that has an [error] key, and no SQL query is
    issued. *)
Theorem range_fetch_requires_bounds (req : request) (w : world) :
  absent_or_empty (args_get "start_date" (request_args req))
  \/ absent_or_empty (args_get "end_date" (request_args req)) ->
  (status (fst (get_temperature_in_range req w)) = 400%Z
   /\ Py.has_key "error" (body (fst (get_temperature_in_range req w))) = true
   /\ calls_made w (snd (get_temperature_in_range req w)) = [])
  /\ (status (fst (get_motion_in_range req w)) = 400%Z
      /\ Py.has_key "error" (body (fst (get_motion_in_range req w))) = true
      /\ calls_made w (snd (get_motion_in_range req w)) = []).
Proof.
  intros H.
  assert (E : Py.str_truthy (args_get "start_date" (request_args req))
              && Py.str_truthy (args_get "end_date" (request_args req)) = false).
  { destruct H as [H | H]; apply absent_or_empty_falsy in H; rewrite H;
      [reflexivity | apply andb_false_r]. }
  rewrite temperature_in_range_run, motion_in_range_run, E. simpl.
  rewrite calls_made_none. repeat split.
Qed.

Lemma range_fetch_requires_bounds_witness :
  status (fst (get_temperature_in_range
                 (mkRequest (Py.Raise "") [("start_date", "2024-01-01")]) Sample.up))
  = 400%Z
  /\ status (fst (get_motion_in_range
                    (mkRequest (Py.Raise "") [("start_date", ""); ("end_date", "2024-01-31")])
                    Sample.up))
     = 400%Z.
Proof.
  split.
  - apply (range_fetch_requires_bounds
             (mkRequest (Py.Raise "") [("start_date", "2024-01-01")]) Sample.up).
    right. left. reflexivity.
  - apply (range_fetch_requires_bounds
             (mkRequest (Py.Raise "") [("start_date", ""); ("end_date", "2024-01-31")])
             Sample.up).
    left. right. reflexivity.
Defined.

(** ** The periodic aggregates *)

Section Periodic.

Variable sql_date : string -> Sql.label.
Variable sql_strftime : string -> string -> Sql.label.

Lemma average_route (bucket : string -> Sql.label) (key text : string) (w : world) :
  String.eqb key "average_temp" = false ->
  let resp :=
    fst (try_except
           (fetch_list
              (select text []
                 (fun d => Sql.mkRowset [key; "average_temp"]
                    (map average_tuple (by_label_desc (average_groups bucket d)))))) w) in
  status resp = 200%Z ->
  averages_by bucket key (db w) resp /\ averages_descending key resp.
Proof.
  intros Hkey resp H. subst resp.
  apply fetch_list_success in H. simpl in H.
  rewrite (average_rows_json _ _ Hkey) in H.
  split; exists (by_label_desc (average_groups bucket (db w))).
  - split; [exact H |].
    apply average_groups_spec, by_label_desc_perm.
  - split; [exact H | apply by_label_desc_sorted].
Qed.

Lemma count_route_desc (bucket : string -> Sql.label) (key text : string) (w : world) :
  String.eqb key "motion_count" = false ->
  let resp :=
    fst (try_except
           (fetch_list
              (select text []
                 (fun d => Sql.mkRowset [key; "motion_count"]
                    (map count_tuple (by_label_desc (count_groups bucket d)))))) w) in
  status resp = 200%Z ->
  counts_by bucket key (db w) resp /\ counts_descending key resp.
Proof.
  intros Hkey resp H. subst resp.
  apply fetch_list_success in H. simpl in H.
  rewrite (count_rows_json _ _ Hkey) in H.
  split; exists (by_label_desc (count_groups bucket (db w))).
  - split; [exact H |].
    apply count_groups_spec, by_label_desc_perm.
  - split; [exact H | apply by_label_desc_sorted].
Qed.

Lemma count_route_asc (bucket : string -> Sql.label) (key text : string) (w : world) :
  String.eqb key "motion_count" = false ->
  let resp :=
    fst (try_except
           (fetch_list
              (select text []
                 (fun d => Sql.mkRowset [key; "motion_count"]
                    (map count_tuple (by_label_asc (count_groups bucket d)))))) w) in
  status resp = 200%Z ->
  counts_by bucket key (db w) resp /\ counts_ascending key resp.
Proof.
  intros Hkey resp H. subst resp.
  apply fetch_list_success in H. simpl in H.
  rewrite (count_rows_json _ _ Hkey) in H.
  split; exists (by_label_asc (count_groups bucket (db w))).
  - split; [exact H |].
    apply count_groups_spec, by_label_asc_perm.
  - split; [exact H | apply by_label_asc_sorted].
Qed.


(** C6: the array of a successful periodic-aggregate response is ordered by
    bucket label descending, except that of the motion-by-hour route, which
    is ordered by hour label ascending. *)
Theorem periodic_aggregate_order (req : request) (w : world) :
  (status (fst (get_daily_temperature_average sql_date req w)) = 200%Z ->
   averages_descending "date" (fst (get_daily_temperature_average sql_date req w)))
  /\ (status (fst (get_weekly_temperature_average sql_strftime req w)) = 200%Z ->
      averages_descending "week"
        (fst (get_weekly_temperature_average sql_strftime req w)))
  /\ (status (fst (get_monthly_temperature_average sql_strftime req w)) = 200%Z ->
      averages_descending "month"
        (fst (get_monthly_temperature_average sql_strftime req w)))
  /\ (status (fst (get_temperature_by_day sql_date req w)) = 200%Z ->
      averages_descending "date" (fst (get_temperature_by_day sql_date req w)))
  /\ (status (fst (get_motion_by_day sql_date req w)) = 200%Z ->
      counts_descending "date" (fst (get_motion_by_day sql_date req w)))
  /\ (status (fst (get_motion_by_hour sql_strftime req w)) = 200%Z ->
      counts_ascending "hour" (fst (get_motion_by_hour sql_strftime req w)))
  /\ (status (fst (get_motion_by_week sql_strftime req w)) = 200%Z ->
      counts_descending "week" (fst (get_motion_by_week sql_strftime req w))).
Proof.
  repeat split; intros H.
  - now apply average_route in H.
  - now apply average_route in H.
  - now apply average_route in H.
  - now apply average_route in H.
  - now apply count_route_desc in H.
  - now apply count_route_asc in H.
  - now apply count_route_desc in H.
Qed.

End Periodic.



Lemma periodic_aggregate_order_witness :
  averages_descending "month"
    (fst (get_monthly_temperature_average Sample.strftime Sample.get Sample.up))
  /\ counts_descending "date" (fst (get_motion_by_day Sample.date Sample.get Sample.up))
  /\ counts_ascending "hour"
       (fst (get_motion_by_hour Sample.strftime Sample.get Sample.up)).
Proof.
  destruct (periodic_aggregate_order Sample.date Sample.strftime Sample.get Sample.up)
    as (_ & _ & Hmonth & _ & Hday & Hhour & _).
  split; [apply Hmonth; reflexivity |].
  split; [apply Hday; reflexivity | apply Hhour; reflexivity].
Defined.

(** ** The peak routes *)

Lemma order_by_first {A : Type} (before : A -> A -> bool) (l : list A) (x : A)
  (rest : list A) :
  (forall a b, before a b = true \/ before b a = true) ->
  (forall a b c, before a b = true -> before b c = true -> before a c = true) ->
  Sql.order_by before l = x :: rest ->
  In x l /\ forall y, In y l -> before x y = true.
Proof.
  intros Htotal Htrans E.
  pose proof (order_by_sorted before Htotal Htrans l) as Hs.
  pose proof (order_by_perm before l) as Hp.
  rewrite E in Hs, Hp. split.
  - apply (Permutation_in _ Hp). now left.
  - intros y Hy. apply (Permutation_in _ (Permutation_sym Hp)) in Hy.
    destruct Hy as [<- | Hy].
    + now destruct (Htotal x x).
    + inversion Hs as [| ? ? _ Hf]; subst.
      rewrite Forall_forall in Hf. now apply Hf.
Qed.

Lemma limit_one_first {A : Type} (l : list A) (x : A) (rest : list A) :
  Sql.limit 1 l = x :: rest -> exists tail, l = x :: tail.
Proof.
  destruct l as [| y tail]; simpl; [discriminate |].
  intros E. injection E as -> _. now exists tail.
Qed.

Lemma hottest_spec (table : list TemperatureReading) (r : TemperatureReading)
  (rest : list TemperatureReading) :
  hottest table = r :: rest ->
  In r table /\ forall r', In r' table -> reading_temperature r' <= reading_temperature r.
Proof.
  intros E. apply limit_one_first in E. destruct E as [tail E].
  apply order_by_first in E.
  - destruct E as [Hin Hmax]. split; [exact Hin |].
    intros r' Hr'. apply Qle_bool_iff. now apply Hmax.
  - intros a b. unfold Sql.desc. apply Qle_bool_total.
  - intros a b c Hab Hbc. unfold Sql.desc in *.
    now apply Qle_bool_trans with (reading_temperature b).
Qed.

Lemma busiest_spec (bucket : string -> Sql.label) (d : database) (day : Sql.label)
  (n : nat) (rest : list (Sql.label * nat)) :
  busiest (count_groups bucket d) = (day, n) :: rest ->
  (exists e, In e (motion d) /\ bucket (event_timestamp e) = day)
  /\ n = events_on bucket day (motion d)
  /\ forall e, In e (motion d) ->
       (events_on bucket (bucket (event_timestamp e)) (motion d) <= n)%nat.
Proof.
  intros E. apply limit_one_first in E. destruct E as [tail E].
  apply order_by_first in E.
  - destruct E as [Hin Hmax].
    destruct (count_groups_spec bucket d _ (Permutation_refl _))
      as (_ & Hkeys & Hvalues).
    split; [| split].
    + apply Hkeys. now apply (in_map fst) in Hin.
    + now apply Hvalues.
    + intros e He.
      assert (Hk : In (bucket (event_timestamp e)) (map fst (count_groups bucket d))).
      { apply Hkeys. now exists e. }
      apply in_map_iff in Hk. destruct Hk as [[b m] [Eb Hg]]. simpl in Eb. subst b.
      pose proof (Hmax _ Hg) as Hle. unfold Sql.desc in Hle. simpl in Hle.
      apply Nat.leb_le in Hle.
      apply Hvalues in Hg. unfold events_on. now rewrite <- Hg.
  - intros a b. unfold Sql.desc. apply nat_leb_total.
  - intros a b c Hab Hbc. unfold Sql.desc in *. now apply nat_leb_trans with (snd b).
Qed.

Section Peak.

Variable sql_date : string -> Sql.label.
Variable none_not_iterable : string.

(** C7: a successful GET /data/temperature/peak returns a reading of the
    table whose temperature is greater than or equal to that of every
    reading of the table; a successful GET /data/motion/peak returns a day
    of the table with its number of events, which is greater than or equal
    to the number of events of every day of the table. *)
Theorem peak_is_maximal (req : request) (w : world) :
  (status (fst (get_peak_temperature none_not_iterable req w)) = 200%Z ->
   hottest_reading (temperature (db w))
     (fst (get_peak_temperature none_not_iterable req w)))
  /\ (status (fst (get_peak_motion sql_date none_not_iterable req w)) = 200%Z ->
      busiest_day sql_date (motion (db w))
        (fst (get_peak_motion sql_date none_not_iterable req w))).
Proof.
  split; intros H.
  - unfold get_peak_temperature, temperature_peak in *.
    apply fetch_single_success in H. destruct H as (row & rest & Erows & Hbody).
    simpl in Erows, Hbody.
    destruct (hottest (temperature (db w))) as [| r others] eqn:E; [discriminate |].
    simpl in Erows. injection Erows as <- _.
    exists r. split; [exact Hbody | now apply hottest_spec with others].
  - unfold get_peak_motion, motion_peak in *.
    apply fetch_single_success in H. destruct H as (row & rest & Erows & Hbody).
    simpl in Erows, Hbody.
    destruct (busiest (count_groups sql_date (db w))) as [| [day n] others] eqn:E;
      [discriminate |].
    simpl in Erows. injection Erows as <- _.
    exists day, n. split; [exact Hbody | now apply busiest_spec with others].
Qed.

(** C10: GET /data/temperature/peak on an empty temperature table, and GET
    /data/motion/peak on an empty motion table, is answered with status 500
    and an error envelope, never with 200; when the store answers, the
    message is that of the TypeError raised on the missing row. *)
Theorem peak_of_empty_table (req : request) (w : world) :
  (temperature (db w) = [] ->
   exists msg,
     fst (get_peak_temperature none_not_iterable req w) = mkResponse 500 (error_body msg)
     /\ (store_up w -> msg = none_not_iterable))
  /\ (motion (db w) = [] ->
      exists msg,
        fst (get_peak_motion sql_date none_not_iterable req w)
        = mkResponse 500 (error_body msg)
        /\ (store_up w -> msg = none_not_iterable)).
Proof.
  unfold store_up, get_peak_temperature, temperature_peak, get_peak_motion, motion_peak.
  rewrite !fetch_single_run. unfold count_groups.
  split; intros E; rewrite E; simpl;
    destruct (conn_bound w), (store_fault w) as [fault |]; simpl;
    eexists; (split; [reflexivity | intros [Hc Hf]; congruence]).
Qed.

End Peak.

Lemma peak_is_maximal_witness :
  hottest_reading Sample.readings
    (fst (get_peak_temperature Sample.not_iterable Sample.get Sample.up))
  /\ busiest_day Sample.date Sample.events
       (fst (get_peak_motion Sample.date Sample.not_iterable Sample.get Sample.up)).
Proof.
  destruct (peak_is_maximal Sample.date Sample.not_iterable Sample.get Sample.up)
    as [Ht Hm].
  split; [apply Ht | apply Hm]; reflexivity.
Defined.

Lemma peak_of_empty_table_witness :
  (exists msg,
     fst (get_peak_temperature Sample.not_iterable Sample.get Sample.empty)
     = mkResponse 500 (error_body msg)
     /\ (store_up Sample.empty -> msg = Sample.not_iterable))
  /\ (exists msg,
        fst (get_peak_motion Sample.date Sample.not_iterable Sample.get Sample.empty)
        = mkResponse 500 (error_body msg)
        /\ (store_up Sample.empty -> msg = Sample.not_iterable)).
Proof.
  destruct (peak_of_empty_table Sample.date Sample.not_iterable Sample.get Sample.empty)
    as [Ht Hm].
  split; [apply Ht | apply Hm]; reflexivity.
Defined.

(** ** Failures, retries and the frame *)

Lemma fetch_list_outcome (text : string) (bound : list (option string))
  (q : database -> Sql.rowset) (w : world) :
  is_select text = true ->
  outcome w (try_except (fetch_list (select text bound q)) w).
Proof.
  intros Hsel. rewrite fetch_list_run.
  destruct (conn_bound w); [| apply no_call].
  destruct (store_fault w) as [msg |].
  - now apply call_failed.
  - now apply call_answered.
Qed.

Lemma fetch_single_outcome (none_not_iterable text : string)
  (bound : list (option string)) (q : database -> Sql.rowset) (w : world) :
  is_select text = true ->
  outcome w (try_except (fetch_single none_not_iterable (select text bound q)) w).
Proof.
  intros Hsel. rewrite fetch_single_run.
  destruct (conn_bound w); [| apply no_call].
  destruct (store_fault w) as [msg |].
  - now apply call_failed.
  - now apply call_answered.
Qed.

Lemma fetch_list_ignores_trace (text : string) (bound : list (option string))
  (q : database -> Sql.rowset) (w : world) (t : list event) :
  fst (try_except (fetch_list (select text bound q)) (set_trace t w)) =
  fst (try_except (fetch_list (select text bound q)) w).
Proof.
  rewrite !fetch_list_run. simpl.
  destruct (conn_bound w); [| reflexivity].
  now destruct (store_fault w).
Qed.

Lemma fetch_single_ignores_trace (none_not_iterable text : string)
  (bound : list (option string)) (q : database -> Sql.rowset) (w : world)
  (t : list event) :
  fst (try_except (fetch_single none_not_iterable (select text bound q)) (set_trace t w)) =
  fst (try_except (fetch_single none_not_iterable (select text bound q)) w).
Proof.
  rewrite !fetch_single_run. simpl.
  destruct (conn_bound w); [| reflexivity].
  now destruct (store_fault w).
Qed.

(** The response the summary route builds from a completion. *)
Lemma summary_run (json_dumps : Py.json -> string) (req : request) (w : world) :
  get_summary json_dumps req w =
  match request_json req with
  | Py.Raise msg => (mkResponse 500 (error_body msg), w)
  | Py.Ok data =>
      if Py.truthy data then
        let call := summary_request (json_dumps data) in
        match llm w call with
        | Py.Raise msg =>
            (mkResponse 500 (error_body msg), record_call (ChatCall call (Some msg)) w)
        | Py.Ok completion =>
            (match first_choice completion with
             | Py.Raise msg => mkResponse 500 (error_body msg)
             | Py.Ok content =>
                 match content_strip content with
                 | Py.Raise msg => mkResponse 500 (error_body msg)
                 | Py.Ok summary => ok (Py.JObject [("summary", Py.JString summary)])
                 end
             end,
             record_call (ChatCall call None) w)
        end
      else (mkResponse 400 (error_body "No data provided"), w)
  end.
Proof.
  unfold get_summary, try_except, bind, lift, chat_completions_create, ret.
  destruct (request_json req) as [data | msg]; [| reflexivity].
  destruct (Py.truthy data); simpl; [| reflexivity].
  destruct (llm w (summary_request (json_dumps data))) as [completion | msg];
    [| reflexivity].
  destruct (first_choice completion) as [content | msg]; [| reflexivity].
  now destruct (content_strip content).
Qed.

Lemma summary_outcome (json_dumps : Py.json -> string) (req : request) (w : world) :
  outcome w (get_summary json_dumps req w).
Proof.
  rewrite summary_run.
  destruct (request_json req) as [data | msg]; [| apply no_call].
  destruct (Py.truthy data); [| apply no_call]. cbv zeta.
  destruct (llm w (summary_request (json_dumps data))) as [completion | msg].
  - now apply call_answered.
  - now apply call_failed.
Qed.

Lemma summary_ignores_trace (json_dumps : Py.json -> string) (req : request)
  (w : world) (t : list event) :
  fst (get_summary json_dumps req (set_trace t w)) = fst (get_summary json_dumps req w).
Proof.
  rewrite !summary_run.
  destruct (request_json req) as [data | msg]; [| reflexivity].
  destruct (Py.truthy data); [| reflexivity]. simpl.
  now destruct (llm w (summary_request (json_dumps data))).
Qed.

Section Routes.

Variable sql_date : string -> Sql.label.
Variable sql_strftime : string -> string -> Sql.label.
Variable json_dumps : Py.json -> string.
Variable none_not_iterable : string.

Lemma view_outcome (rt : route) (req : request) (w : world) :
  outcome w (view sql_date sql_strftime json_dumps none_not_iterable rt req w).
Proof.
  destruct rt; simpl;
    try (apply fetch_list_outcome; reflexivity);
    try (apply fetch_single_outcome; reflexivity).
  - apply summary_outcome.
  - rewrite temperature_in_range_run.
    destruct (_ && _); [apply fetch_list_outcome; reflexivity | apply no_call].
  - rewrite motion_in_range_run.
    destruct (_ && _); [apply fetch_list_outcome; reflexivity | apply no_call].
Qed.

Lemma view_ignores_trace (rt : route) (req : request) (w : world) (t : list event) :
  fst (view sql_date sql_strftime json_dumps none_not_iterable rt req (set_trace t w)) =
  fst (view sql_date sql_strftime json_dumps none_not_iterable rt req w).
Proof.
  destruct rt; simpl;
    try apply fetch_list_ignores_trace; try apply fetch_single_ignores_trace.
  - apply summary_ignores_trace.
  - rewrite !temperature_in_range_run.
    destruct (_ && _); [apply fetch_list_ignores_trace | reflexivity].
  - rewrite !motion_in_range_run.
    destruct (_ && _); [apply fetch_list_ignores_trace | reflexivity].
Qed.

End Routes.

Lemma outcome_calls (w : world) (out : response * world) :
  outcome w out ->
  calls_made w (snd out) = []
  \/ (exists e, calls_made w (snd out) = [e] /\ event_raised e = None /\ read_only e)
  \/ (exists e msg,
        calls_made w (snd out) = [e] /\ event_raised e = Some msg /\ read_only e
        /\ fst out = mkResponse 500 (error_body msg)).
Proof.
  intros [resp | resp e Hnone Hread | e msg Hsome Hread]; simpl.
  - left. apply calls_made_none.
  - right. left. exists e. now rewrite calls_made_one.
  - right. right. exists e, msg. now rewrite calls_made_one.
Qed.

Lemma outcome_world (w : world) (out : response * world) :
  outcome w out -> exists t, snd out = set_trace t w.
Proof.
  intros [resp | resp e _ _ | e msg _ _]; simpl.
  - exists (trace w). now destruct w.
  - now exists (trace w ++ [e]).
  - now exists (trace w ++ [e]).
Qed.

Section Surface.

Variable sql_date : string -> Sql.label.
Variable sql_strftime : string -> string -> Sql.label.
Variable json_dumps : Py.json -> string.
Variable none_not_iterable : string.

(** C8: on every route, when the call to the data store or to the
    text-generation service raises an exception, the response has status 500
    and its body is exactly {error: m}, m being the exception's message; the
    failed call is the only call of the request: it is neither retried nor
    swallowed. *)
Theorem upstream_failure_surfaces (rt : route) (req : request) (w : world)
  (e : event) (msg : string) :
  In e (calls_made w
          (snd (view sql_date sql_strftime json_dumps none_not_iterable rt req w))) ->
  event_raised e = Some msg ->
  fst (view sql_date sql_strftime json_dumps none_not_iterable rt req w)
  = mkResponse 500 (error_body msg)
  /\ calls_made w
       (snd (view sql_date sql_strftime json_dumps none_not_iterable rt req w))
     = [e].
Proof.
  intros Hin Hraised.
  destruct (outcome_calls w _
              (view_outcome sql_date sql_strftime json_dumps none_not_iterable rt req w))
    as [E | [(e' & E & Hnone & _) | (e' & msg' & E & Hsome & _ & Hresp)]];
    rewrite E in Hin; simpl in Hin.
  - contradiction.
  - destruct Hin as [<- | []]. congruence.
  - destruct Hin as [<- | []].
    rewrite Hsome in Hraised. injection Hraised as <-. now split.
Qed.

(** C9: handling a request leaves the temperature and motion tables as they
    were; every SQL statement issued is a SELECT; and the gateway carries
    nothing from one request to the next: the answer to a request is the
    same whether or not another request was handled before it. *)
Theorem handlers_only_read (rt : route) (req : request) (w : world) :
  db (snd (view sql_date sql_strftime json_dumps none_not_iterable rt req w)) = db w
  /\ Forall read_only
       (calls_made w
          (snd (view sql_date sql_strftime json_dumps none_not_iterable rt req w)))
  /\ (forall (rt' : route) (req' : request),
        fst (view sql_date sql_strftime json_dumps none_not_iterable rt' req'
               (snd (view sql_date sql_strftime json_dumps none_not_iterable rt req w)))
        = fst (view sql_date sql_strftime json_dumps none_not_iterable rt' req' w)).
Proof.
  pose proof (view_outcome sql_date sql_strftime json_dumps none_not_iterable rt req w)
    as Hout.
  destruct (outcome_world w _ Hout) as [t Et].
  split; [| split].
  - now rewrite Et.
  - destruct (outcome_calls w _ Hout)
      as [E | [(e & E & _ & Hread) | (e & msg & E & _ & Hread & _)]];
      rewrite E; repeat constructor; exact Hread.
  - intros rt' req'. rewrite Et. apply view_ignores_trace.
Qed.

(** C1, as the code has it: POST /summarize answers 400 with an error
    envelope exactly when the parsed JSON body is falsy (null, an empty
    object, ...).  Every other body, in particular every object with a
    [data] field, makes the handler call the text-generation service once;
    when the service answers with a text, the response has status 200 and
    carries that text, stripped of surrounding whitespace, under the
    [summary] key. *)
Theorem summarize_checks_the_body (req : request) (w : world) (data : Py.json) :
  request_json req = Py.Ok data ->
  (Py.truthy data = false ->
   get_summary json_dumps req w
   = (mkResponse 400 (error_body "No data provided"), w))
  /\ (Py.has_key "data" data = true -> Py.truthy data = true)
  /\ (Py.truthy data = true ->
      (exists raised,
         calls_made w (snd (get_summary json_dumps req w))
         = [ChatCall (summary_request (json_dumps data)) raised])
      /\ forall (text : string) (others : list (option string)),
           llm w (summary_request (json_dumps data))
           = Py.Ok (mkCompletion (Some text :: others)) ->
           fst (get_summary json_dumps req w)
           = mkResponse 200 (Py.JObject [("summary", Py.JString (Py.strip text))])).
Proof.
  intros Hjson. rewrite summary_run, Hjson.
  split; [| split].
  - now intros ->.
  - destruct data as [| | | | | fields]; simpl; try discriminate.
    now destruct fields.
  - intros ->. cbv zeta. split.
    + destruct (llm w (summary_request (json_dumps data))) as [completion | msg];
        simpl; rewrite calls_made_one; eauto.
    + intros text others ->. reflexivity.
Qed.

End Surface.

(** A body without a [data] field is summarized all the same, and a body
    with one can come back with an empty summary: C1 as stated does not
    hold. *)
Lemma summarize_accepts_body_without_data :
  (Py.has_key "data" (Py.JObject [("temp", Py.JNumber (Py.Float (43 # 2)))]) = false
   /\ fst (get_summary Sample.dumps
             (Sample.post (Py.JObject [("temp", Py.JNumber (Py.Float (43 # 2)))]))
             Sample.up)
      = mkResponse 200 (Py.JObject [("summary", Py.JString "Mild and quiet.")]))
  /\ (Py.has_key "data"
        (Py.JObject [("data", Py.JObject [("temp", Py.JNumber (Py.Float (43 # 2)))])])
      = true
      /\ fst (get_summary Sample.dumps
                (Sample.post
                   (Py.JObject
                      [("data", Py.JObject [("temp", Py.JNumber (Py.Float (43 # 2)))])]))
                (mkWorld true None Sample.store (Sample.service "  ") []))
         = mkResponse 200 (Py.JObject [("summary", Py.JString "")])).
Proof. repeat split. Qed.

Lemma summarize_checks_the_body_witness :
  fst (get_summary Sample.dumps
         (Sample.post
            (Py.JObject [("data", Py.JObject [("temp", Py.JNumber (Py.Float (43 # 2)))])]))
         Sample.up)
  = mkResponse 200 (Py.JObject [("summary", Py.JString "Mild and quiet.")])
  /\ get_summary Sample.dumps (Sample.post (Py.JObject [])) Sample.up
     = (mkResponse 400 (error_body "No data provided"), Sample.up).
Proof.
  split.
  - destruct (summarize_checks_the_body Sample.dumps
                (Sample.post
                   (Py.JObject
                      [("data", Py.JObject [("temp", Py.JNumber (Py.Float (43 # 2)))])]))
                Sample.up _ eq_refl) as (_ & Hdata & Hcall).
    destruct (Hcall (Hdata eq_refl)) as [_ Htext].
    exact (Htext "  Mild and quiet. " [] eq_refl).
  - destruct (summarize_checks_the_body Sample.dumps (Sample.post (Py.JObject []))
                Sample.up _ eq_refl) as (Hfalsy & _).
    exact (Hfalsy eq_refl).
Defined.

Lemma upstream_failure_surfaces_witness :
  fst (view Sample.date Sample.strftime Sample.dumps Sample.not_iterable
         data_temperature Sample.get Sample.down)
  = mkResponse 500 (error_body "connection lost")
  /\ fst (view Sample.date Sample.strftime Sample.dumps Sample.not_iterable
            summarize (Sample.post (Py.JObject [("temp", Py.JNumber (Py.Int 21))]))
            Sample.down)
     = mkResponse 500 (error_body "rate limited").
Proof.
  split.
  - apply (upstream_failure_surfaces Sample.date Sample.strftime Sample.dumps
             Sample.not_iterable data_temperature Sample.get Sample.down
             (SqlCall "SELECT * FROM temperature ORDER BY timestamp DESC LIMIT 100" []
                (Some "connection lost"))
             "connection lost").
    + left. reflexivity.
    + reflexivity.
  - apply (upstream_failure_surfaces Sample.date Sample.strftime Sample.dumps
             Sample.not_iterable summarize
             (Sample.post (Py.JObject [("temp", Py.JNumber (Py.Int 21))])) Sample.down
             (ChatCall (summary_request (Sample.dumps
                                           (Py.JObject [("temp", Py.JNumber (Py.Int 21))])))
                (Some "rate limited"))
             "rate limited").
    + left. reflexivity.
    + reflexivity.
Defined.

(** ** Beyond the claims: error paths and shapes *)

(** When [request.json] itself raises, POST /summarize answers 500 with the
    exception's text and the text-generation service is not called. *)
Theorem summarize_unreadable_body (json_dumps : Py.json -> string) (req : request)
  (w : world) (msg : string) :
  request_json req = Py.Raise msg ->
  get_summary json_dumps req w = (mkResponse 500 (error_body msg), w)
  /\ calls_made w (snd (get_summary json_dumps req w)) = [].
Proof.
  intros H. rewrite summary_run, H. simpl. now rewrite calls_made_none.
Qed.

Lemma summarize_unreadable_body_witness :
  get_summary Sample.dumps Sample.get Sample.up
  = (mkResponse 500 (error_body "415 Unsupported Media Type"), Sample.up).
Proof.
  apply (summarize_unreadable_body Sample.dumps Sample.get Sample.up
           "415 Unsupported Media Type").
  reflexivity.
Defined.

(** A completion the handler cannot read is a server error, after the one
    call: no choice at all gives the IndexError text, a first choice without
    content gives the AttributeError text. *)
Theorem summarize_unusable_completion (json_dumps : Py.json -> string)
  (req : request) (w : world) (data : Py.json) (completion : chat_completion) :
  request_json req = Py.Ok data ->
  Py.truthy data = true ->
  llm w (summary_request (json_dumps data)) = Py.Ok completion ->
  (choices completion = [] ->
   fst (get_summary json_dumps req w)
   = mkResponse 500 (error_body "list index out of range"))
  /\ (forall others, choices completion = None :: others ->
        fst (get_summary json_dumps req w)
        = mkResponse 500 (error_body "'NoneType' object has no attribute 'strip'"))
  /\ calls_made w (snd (get_summary json_dumps req w))
     = [ChatCall (summary_request (json_dumps data)) None].
Proof.
  intros Hjson Htruthy Hllm.
  rewrite summary_run, Hjson, Htruthy. cbv zeta. rewrite Hllm. simpl.
  unfold first_choice. split; [| split].
  - now intros ->.
  - now intros others ->.
  - apply calls_made_one.
Qed.

Lemma summarize_unusable_completion_witness :
  fst (get_summary Sample.dumps (Sample.post (Py.JBool true))
         (mkWorld true None Sample.store (fun _ => Py.Ok (mkCompletion [])) []))
  = mkResponse 500 (error_body "list index out of range")
  /\ fst (get_summary Sample.dumps (Sample.post (Py.JBool true))
            (mkWorld true None Sample.store
               (fun _ => Py.Ok (mkCompletion [None; Some "x"])) []))
     = mkResponse 500 (error_body "'NoneType' object has no attribute 'strip'").
Proof.
  split.
  - apply (summarize_unusable_completion Sample.dumps (Sample.post (Py.JBool true))
             (mkWorld true None Sample.store (fun _ => Py.Ok (mkCompletion [])) [])
             (Py.JBool true) (mkCompletion []) eq_refl eq_refl eq_refl).
    reflexivity.
  - apply (summarize_unusable_completion Sample.dumps (Sample.post (Py.JBool true))
             (mkWorld true None Sample.store
                (fun _ => Py.Ok (mkCompletion [None; Some "x"])) [])
             (Py.JBool true) (mkCompletion [None; Some "x"]) eq_refl eq_refl eq_refl)
      with (others := [Some "x"]).
    reflexivity.
Defined.

Lemma fetch_list_unbound (st : statement) (w : world) :
  conn_bound w = false ->
  try_except (fetch_list st) w
  = (mkResponse 500 (error_body "name 'conn' is not defined"), w).
Proof.
  intros H. unfold try_except, fetch_list, bind, conn_cursor. now rewrite H.
Qed.

Lemma fetch_single_unbound (none_not_iterable : string) (st : statement) (w : world) :
  conn_bound w = false ->
  try_except (fetch_single none_not_iterable st) w
  = (mkResponse 500 (error_body "name 'conn' is not defined"), w).
Proof.
  intros H. unfold try_except, fetch_single, bind, conn_cursor. now rewrite H.
Qed.

Section Unbound.

Variable sql_date : string -> Sql.label.
Variable sql_strftime : string -> string -> Sql.label.
Variable json_dumps : Py.json -> string.
Variable none_not_iterable : string.

(** A failed connection at startup is printed and swallowed; from then on
    every store route answers 500 with the NameError text, except that a
    range route answers 400 exactly when a bound is absent or empty; the
    store is not contacted. *)
Theorem failed_startup_breaks_store_routes (connect : string -> Py.result unit)
  (database_url api_key : option string) (e : string) (rt : route) (req : request)
  (w : world) :
  connect (connection_string database_url api_key) = Py.Raise e ->
  conn_bound w = fst (connect_at_startup connect database_url api_key) ->
  rt <> summarize ->
  snd (connect_at_startup connect database_url api_key)
  = ("Failed to connect to SQLite Cloud: " ++ e)%string
  /\ view sql_date sql_strftime json_dumps none_not_iterable rt req w
     = (if validates_input rt
           && negb (Py.str_truthy (args_get "start_date" (request_args req))
                    && Py.str_truthy (args_get "end_date" (request_args req)))
        then mkResponse 400 (error_body "Start date and end date are required")
        else mkResponse 500 (error_body "name 'conn' is not defined"),
        w).
Proof.
  intros Hconnect Hbound Hrt.
  unfold connect_at_startup in *. rewrite Hconnect in *. simpl in Hbound.
  split; [reflexivity |].
  destruct rt; unfold view; cbn [validates_input andb]; try congruence;
    try rewrite temperature_in_range_run; try rewrite motion_in_range_run;
    unfold get_temperature_data, get_motion_data, get_daily_temperature_average,
      get_weekly_temperature_average, get_monthly_temperature_average,
      get_motion_by_day, get_temperature_by_day, get_motion_by_hour,
      get_motion_by_week, get_peak_temperature, get_peak_motion;
    try destruct (Py.str_truthy (args_get "start_date" (request_args req))
                  && Py.str_truthy (args_get "end_date" (request_args req)));
    try rewrite (fetch_list_unbound _ w Hbound);
    try rewrite (fetch_single_unbound _ _ w Hbound);
    reflexivity.
Qed.

End Unbound.

Lemma failed_startup_breaks_store_routes_witness :
  view Sample.date Sample.strftime Sample.dumps Sample.not_iterable
    data_temperature_range Sample.january
    (mkWorld false None Sample.store (Sample.service "") [])
  = (mkResponse 500 (error_body "name 'conn' is not defined"),
     mkWorld false None Sample.store (Sample.service "") [])
  /\ view Sample.date Sample.strftime Sample.dumps Sample.not_iterable
       data_motion_range Sample.get
       (mkWorld false None Sample.store (Sample.service "") [])
     = (mkResponse 400 (error_body "Start date and end date are required"),
        mkWorld false None Sample.store (Sample.service "") []).
Proof.
  split.
  - apply (failed_startup_breaks_store_routes Sample.date Sample.strftime
             Sample.dumps Sample.not_iterable
             (fun _ => Py.Raise "host unreachable") None (Some "key")
             "host unreachable" data_temperature_range Sample.january
             (mkWorld false None Sample.store (Sample.service "") [])
             eq_refl eq_refl).
    discriminate.
  - apply (failed_startup_breaks_store_routes Sample.date Sample.strftime
             Sample.dumps Sample.not_iterable
             (fun _ => Py.Raise "host unreachable") None (Some "key")
             "host unreachable" data_motion_range Sample.get
             (mkWorld false None Sample.store (Sample.service "") [])
             eq_refl eq_refl).
    discriminate.
Defined.

Lemma fetch_list_shape (st : statement) (w : world) :
  (status (fst (try_except (fetch_list st) w)) = 200%Z
   /\ is_array (body (fst (try_except (fetch_list st) w))) = true)
  \/ (status (fst (try_except (fetch_list st) w)) = 500%Z
      /\ exists msg, body (fst (try_except (fetch_list st) w)) = error_body msg).
Proof.
  unfold try_except, fetch_list, bind, conn_cursor, cursor_execute.
  destruct (conn_bound w); [| right; simpl; eauto].
  destruct (store_fault w) as [msg |]; [right; simpl; eauto |].
  destruct (effect st (db w)) as [answer d]. left. now simpl.
Qed.

Lemma fetch_single_shape (none_not_iterable : string) (st : statement) (w : world) :
  (status (fst (try_except (fetch_single none_not_iterable st) w)) = 200%Z
   /\ is_object (body (fst (try_except (fetch_single none_not_iterable st) w))) = true)
  \/ (status (fst (try_except (fetch_single none_not_iterable st) w)) = 500%Z
      /\ exists msg,
           body (fst (try_except (fetch_single none_not_iterable st) w))
           = error_body msg).
Proof.
  unfold try_except, fetch_single, bind, conn_cursor, cursor_execute, lift.
  destruct (conn_bound w); [| right; simpl; eauto].
  destruct (store_fault w) as [msg |]; [right; simpl; eauto |].
  destruct (effect st (db w)) as [answer d].
  destruct (fetchone answer); [left; now simpl | right; simpl; eauto].
Qed.

Section Shapes.

Variable sql_date : string -> Sql.label.
Variable sql_strftime : string -> string -> Sql.label.
Variable json_dumps : Py.json -> string.
Variable none_not_iterable : string.

(** Every response is 200 with a JSON array (a JSON object on the summary
    and peak routes), or 400 with an error envelope, which only the summary
    and range routes give, or 500 with an error envelope. *)
Theorem responses_are_well_shaped (rt : route) (req : request) (w : world) :
  well_shaped rt (fst (view sql_date sql_strftime json_dumps none_not_iterable rt req w)).
Proof.
  unfold well_shaped.
  destruct rt; unfold view;
    try rewrite temperature_in_range_run; try rewrite motion_in_range_run;
    unfold get_temperature_data, get_motion_data, get_daily_temperature_average,
      get_weekly_temperature_average, get_monthly_temperature_average,
      get_motion_by_day, get_temperature_by_day, get_motion_by_hour,
      get_motion_by_week, get_peak_temperature, get_peak_motion;
    try (destruct (_ && _); [| right; left; simpl; eauto]);
    try match goal with
        | |- context [try_except (fetch_list ?st) w] =>
            destruct (fetch_list_shape st w) as [[Hs Hb] | [Hs Hb]];
            [left | right; right]; now split
        | |- context [try_except (fetch_single ?m ?st) w] =>
            destruct (fetch_single_shape m st w) as [[Hs Hb] | [Hs Hb]];
            [left | right; right]; now split
        end.
  rewrite summary_run.
  destruct (request_json req) as [data | msg]; [| right; right; simpl; eauto].
  destruct (Py.truthy data); [| right; left; simpl; eauto]. cbv zeta.
  destruct (llm w (summary_request (json_dumps data))) as [completion | msg];
    [| right; right; simpl; eauto].
  destruct (first_choice completion) as [content | msg];
    [| right; right; simpl; eauto].
  destruct (content_strip content) as [summary | msg];
    [left; now simpl | right; right; simpl; eauto].
Qed.

End Shapes.

(** ** Beyond the claims: what is sent upstream *)

Lemma calls_made_after_effect (e : event) (d : database) (w : world) :
  calls_made w (record_call e (set_db d w)) = [e].
Proof.
  unfold calls_made, record_call, set_db; simpl.
  rewrite skipn_app, skipn_all, Nat.sub_diag. reflexivity.
Qed.

Lemma fetch_list_calls (st : statement) (w : world) (e : event) :
  In e (calls_made w (snd (try_except (fetch_list st) w))) ->
  conn_bound w = true /\ e = SqlCall (sql st) (params st) (store_fault w).
Proof.
  unfold try_except, fetch_list, bind, conn_cursor, cursor_execute.
  destruct (conn_bound w); [| cbn -[calls_made]; rewrite calls_made_none; contradiction].
  destruct (store_fault w) as [msg |]; cbn -[calls_made].
  - rewrite calls_made_one. intros [<- | []]. now split.
  - destruct (effect st (db w)) as [answer d]. cbn -[calls_made].
    rewrite calls_made_after_effect. intros [<- | []]. now split.
Qed.

Lemma fetch_single_calls (none_not_iterable : string) (st : statement) (w : world)
  (e : event) :
  In e (calls_made w (snd (try_except (fetch_single none_not_iterable st) w))) ->
  conn_bound w = true /\ e = SqlCall (sql st) (params st) (store_fault w).
Proof.
  unfold try_except, fetch_single, bind, conn_cursor, cursor_execute, lift.
  destruct (conn_bound w); [| cbn -[calls_made]; rewrite calls_made_none; contradiction].
  destruct (store_fault w) as [msg |]; cbn -[calls_made].
  - rewrite calls_made_one. intros [<- | []]. now split.
  - destruct (effect st (db w)) as [answer d]. cbn -[calls_made].
    destruct (fetchone answer); cbn -[calls_made];
      rewrite calls_made_after_effect; intros [<- | []]; now split.
Qed.

Lemma summary_calls (json_dumps : Py.json -> string) (req : request) (w : world)
  (e : event) :
  In e (calls_made w (snd (get_summary json_dumps req w))) ->
  exists data raised,
    request_json req = Py.Ok data /\ Py.truthy data = true
    /\ e = ChatCall (summary_request (json_dumps data)) raised.
Proof.
  rewrite summary_run.
  destruct (request_json req) as [data | msg];
    [| cbn -[calls_made]; rewrite calls_made_none; contradiction].
  destruct (Py.truthy data) eqn:Ht;
    [| cbn -[calls_made]; rewrite calls_made_none; contradiction].
  cbv zeta.
  destruct (llm w (summary_request (json_dumps data))) as [completion | msg]; cbn -[calls_made];
    rewrite calls_made_one; intros [<- | []]; eauto.
Qed.

Section Upstream.

Variable sql_date : string -> Sql.label.
Variable sql_strftime : string -> string -> Sql.label.
Variable json_dumps : Py.json -> string.
Variable none_not_iterable : string.

(** What a route sends to the store: a statement whose text depends on the
    route alone, never on the request; the range routes bind the start_date
    and end_date query parameters as they came, both non-empty, and every
    other route binds nothing. *)
Theorem sql_text_is_fixed (rt : route) (req req' : request) (w w' : world)
  (text text' : string) (bound bound' : list (option string))
  (raised raised' : option string) :
  In (SqlCall text bound raised)
    (calls_made w
       (snd (view sql_date sql_strftime json_dumps none_not_iterable rt req w))) ->
  In (SqlCall text' bound' raised')
    (calls_made w'
       (snd (view sql_date sql_strftime json_dumps none_not_iterable rt req' w'))) ->
  text = text'
  /\ bound = (if validates_input rt
              then [args_get "start_date" (request_args req);
                    args_get "end_date" (request_args req)]
              else [])
  /\ (validates_input rt = true ->
      Py.str_truthy (args_get "start_date" (request_args req)) = true
      /\ Py.str_truthy (args_get "end_date" (request_args req)) = true).
Proof.
  destruct rt; unfold view;
    try rewrite !temperature_in_range_run; try rewrite !motion_in_range_run;
    unfold get_temperature_data, get_motion_data, get_daily_temperature_average,
      get_weekly_temperature_average, get_monthly_temperature_average,
      get_motion_by_day, get_temperature_by_day, get_motion_by_hour,
      get_motion_by_week, get_peak_temperature, get_peak_motion.
  1: { intros H _. apply summary_calls in H.
       destruct H as (data & r & _ & _ & H). discriminate. }
  all: try (intros H H'; apply fetch_list_calls in H; apply fetch_list_calls in H';
            destruct H as [_ H], H' as [_ H'];
            injection H as -> -> _; injection H' as -> _ _;
            repeat split; discriminate).
  all: try (intros H H'; apply fetch_single_calls in H; apply fetch_single_calls in H';
            destruct H as [_ H], H' as [_ H'];
            injection H as -> -> _; injection H' as -> _ _;
            repeat split; discriminate).
  all: destruct (Py.str_truthy (args_get "start_date" (request_args req))
                 && Py.str_truthy (args_get "end_date" (request_args req))) eqn:E;
    [| cbn -[calls_made]; rewrite calls_made_none; contradiction];
    destruct (Py.str_truthy (args_get "start_date" (request_args req'))
              && Py.str_truthy (args_get "end_date" (request_args req')));
    [| cbn -[calls_made]; rewrite calls_made_none; contradiction];
    intros H H'; apply fetch_list_calls in H; apply fetch_list_calls in H';
    destruct H as [_ H], H' as [_ H'];
    injection H as -> -> _; injection H' as -> _ _;
    apply andb_true_iff in E; destruct E as [E1 E2];
    repeat split; assumption.
Qed.

(** Which service a route calls: the summary route only the text-generation
    service, with the serialized body in the prompt and the fixed model,
    token budget and number of choices; every other route only the store. *)
Theorem routes_call_their_own_upstream (rt : route) (req : request) (w : world)
  (e : event) :
  In e (calls_made w
          (snd (view sql_date sql_strftime json_dumps none_not_iterable rt req w))) ->
  match e with
  | ChatCall call _ =>
      rt = summarize
      /\ chat_model call = "gpt-4o-mini-2024-07-18"
      /\ chat_max_tokens call = 650%nat
      /\ chat_n call = 1%nat
      /\ exists data,
           request_json req = Py.Ok data
           /\ chat_messages call
              = [("system", system_prompt); ("user", user_prompt (json_dumps data))]
  | SqlCall _ _ _ => rt <> summarize
  end.
Proof.
  destruct rt; unfold view;
    try rewrite !temperature_in_range_run; try rewrite !motion_in_range_run;
    unfold get_temperature_data, get_motion_data, get_daily_temperature_average,
      get_weekly_temperature_average, get_monthly_temperature_average,
      get_motion_by_day, get_temperature_by_day, get_motion_by_hour,
      get_motion_by_week, get_peak_temperature, get_peak_motion.
  1: { intros H. apply summary_calls in H.
       destruct H as (data & r & Hjson & _ & ->). simpl. repeat split. eauto. }
  all: try (intros H; apply fetch_list_calls in H; destruct H as [_ ->]; discriminate).
  all: try (intros H; apply fetch_single_calls in H; destruct H as [_ ->]; discriminate).
  all: destruct (_ && _); [| cbn -[calls_made]; rewrite calls_made_none; contradiction];
    intros H; apply fetch_list_calls in H; destruct H as [_ ->]; discriminate.
Qed.

End Upstream.

Lemma sql_text_is_fixed_witness :
  sql (temperature_between (Some "2024-01-01") (Some "2024-01-31"))
  = sql (temperature_between (Some "2023") (Some "2024"))
  /\ [Some "2024-01-01"; Some "2024-01-31"]
     = (if validates_input data_temperature_range
        then [args_get "start_date" (request_args Sample.january);
              args_get "end_date" (request_args Sample.january)]
        else [])
  /\ (validates_input data_temperature_range = true ->
      Py.str_truthy (args_get "start_date" (request_args Sample.january)) = true
      /\ Py.str_truthy (args_get "end_date" (request_args Sample.january)) = true).
Proof.
  apply (sql_text_is_fixed Sample.date Sample.strftime Sample.dumps Sample.not_iterable
           data_temperature_range Sample.january
           (mkRequest (Py.Raise "") [("start_date", "2023"); ("end_date", "2024")])
           Sample.up Sample.down _ _ _ [Some "2023"; Some "2024"]
           None (Some "connection lost")).
  - left. reflexivity.
  - left. reflexivity.
Defined.

Lemma routes_call_their_own_upstream_witness :
  summarize = summarize
  /\ chat_model (summary_request (Sample.dumps (Py.JBool true)))
     = "gpt-4o-mini-2024-07-18"
  /\ chat_max_tokens (summary_request (Sample.dumps (Py.JBool true))) = 650%nat
  /\ chat_n (summary_request (Sample.dumps (Py.JBool true))) = 1%nat
  /\ exists data,
       request_json (Sample.post (Py.JBool true)) = Py.Ok data
       /\ chat_messages (summary_request (Sample.dumps (Py.JBool true)))
          = [("system", system_prompt); ("user", user_prompt (Sample.dumps data))].
Proof.
  apply (routes_call_their_own_upstream Sample.date Sample.strftime Sample.dumps
           Sample.not_iterable summarize (Sample.post (Py.JBool true)) Sample.up
           (ChatCall (summary_request (Sample.dumps (Py.JBool true))) None)).
  left. reflexivity.
Defined.

(** ** Beyond the claims: edges of the list routes *)

Lemma between_needs_order (lo hi x : string) :
  String.leb lo hi = false -> Sql.between lo hi x = false.
Proof.
  intros H. unfold Sql.between.
  destruct (String.leb lo x) eqn:E1; [| reflexivity].
  destruct (String.leb x hi) eqn:E2; [| reflexivity].
  now rewrite (string_leb_trans _ _ _ E1 E2) in H.
Qed.

Lemma rows_between_reversed {A : Type} (ts : A -> string) (lo hi : string)
  (table : list A) :
  String.leb lo hi = false -> rows_between ts (Some lo) (Some hi) table = [].
Proof.
  intros H. unfold rows_between.
  replace (filter _ table) with (@nil A); [reflexivity |].
  induction table as [| r table IH]; simpl; [reflexivity |].
  now rewrite (between_needs_order _ _ _ H).
Qed.

(** A range whose start sorts after its end selects nothing: a successful
    response is the empty array. *)
Theorem range_with_reversed_bounds (req : request) (w : world) (lo hi : string) :
  args_get "start_date" (request_args req) = Some lo ->
  args_get "end_date" (request_args req) = Some hi ->
  String.leb lo hi = false ->
  (status (fst (get_temperature_in_range req w)) = 200%Z ->
   body (fst (get_temperature_in_range req w)) = Py.JArray [])
  /\ (status (fst (get_motion_in_range req w)) = 200%Z ->
      body (fst (get_motion_in_range req w)) = Py.JArray []).
Proof.
  intros Hlo Hhi Horder.
  rewrite temperature_in_range_run, motion_in_range_run, Hlo, Hhi.
  destruct (Py.str_truthy (Some lo) && Py.str_truthy (Some hi));
    [| split; discriminate].
  split; intros H.
  - unfold temperature_between in *.
    apply fetch_list_success in H. rewrite H. simpl.
    now rewrite (rows_between_reversed _ _ _ _ Horder).
  - unfold motion_between in *.
    apply fetch_list_success in H. rewrite H. simpl.
    now rewrite (rows_between_reversed _ _ _ _ Horder).
Qed.

Lemma range_with_reversed_bounds_witness :
  body (fst (get_temperature_in_range
               (mkRequest (Py.Raise "")
                  [("start_date", "2024-02-01"); ("end_date", "2024-01-01")])
               Sample.up))
  = Py.JArray [].
Proof.
  destruct (range_with_reversed_bounds
              (mkRequest (Py.Raise "")
                 [("start_date", "2024-02-01"); ("end_date", "2024-01-01")])
              Sample.up "2024-02-01" "2024-01-01" eq_refl eq_refl eq_refl) as [H _].
  apply H. reflexivity.
Defined.

Lemma latest_by_timestamp_all {A : Type} (ts : A -> string) (table : list A) :
  List.length (latest_by_timestamp ts table) = Nat.min 100 (List.length table)
  /\ ((List.length table <= 100)%nat ->
      Permutation (latest_by_timestamp ts table) table).
Proof.
  unfold latest_by_timestamp, Sql.limit.
  pose proof (Permutation_length (order_by_perm (Sql.desc String.leb ts) table)) as Hlen.
  split.
  - now rewrite length_firstn, Hlen.
  - intros Hle. rewrite firstn_all2; [apply order_by_perm | lia].
Qed.

(** The raw fetch routes return as many rows as the table has, up to 100;
    a table of at most 100 rows is returned whole. *)
Theorem raw_fetch_small_table (req : request) (w : world) :
  (status (fst (get_temperature_data req w)) = 200%Z ->
   exists rows,
     body (fst (get_temperature_data req w)) = Py.JArray (map reading_object rows)
     /\ List.length rows = Nat.min 100 (List.length (temperature (db w)))
     /\ ((List.length (temperature (db w)) <= 100)%nat ->
         Permutation rows (temperature (db w))))
  /\ (status (fst (get_motion_data req w)) = 200%Z ->
      exists rows,
        body (fst (get_motion_data req w)) = Py.JArray (map event_object rows)
        /\ List.length rows = Nat.min 100 (List.length (motion (db w)))
        /\ ((List.length (motion (db w)) <= 100)%nat ->
            Permutation rows (motion (db w)))).
Proof.
  split; intros H.
  - unfold get_temperature_data, temperature_latest in *.
    apply fetch_list_success in H.
    exists (latest_by_timestamp reading_timestamp (temperature (db w))).
    split; [rewrite H; apply reading_rows_json | apply latest_by_timestamp_all].
  - unfold get_motion_data, motion_latest in *.
    apply fetch_list_success in H.
    exists (latest_by_timestamp event_timestamp (motion (db w))).
    split; [rewrite H; apply event_rows_json | apply latest_by_timestamp_all].
Qed.

Lemma raw_fetch_small_table_witness :
  exists rows,
    body (fst (get_temperature_data Sample.get Sample.up))
    = Py.JArray (map reading_object rows)
    /\ List.length rows = Nat.min 100 (List.length Sample.readings)
    /\ ((List.length Sample.readings <= 100)%nat -> Permutation rows Sample.readings).
Proof.
  destruct (raw_fetch_small_table Sample.get Sample.up) as [H _].
  apply H. reflexivity.
Defined.

(** ** Beyond the claims: how the aggregate routes fit together *)

Lemma feed_count_total (k : Sql.label) (groups : list (Sql.label * nat)) :
  list_sum (map snd (Sql.feed k S 0%nat groups)) = S (list_sum (map snd groups)).
Proof.
  induction groups as [| [k' n] groups IH]; simpl; [reflexivity |].
  destruct (Sql.label_eqb k' k); simpl; [reflexivity |].
  rewrite IH. lia.
Qed.

Lemma group_by_count_total {A : Type} (key : A -> Sql.label) (rows : list A) :
  list_sum (map snd (Sql.group_by key Sql.count_step 0%nat rows)) = List.length rows.
Proof.
  induction rows as [| r rows IH] using rev_ind; [reflexivity |].
  rewrite group_by_snoc, length_app. simpl.
  unfold Sql.count_step at 1. rewrite feed_count_total, IH. lia.
Qed.

Lemma list_sum_perm (l l' : list nat) : Permutation l l' -> list_sum l = list_sum l'.
Proof. induction 1; simpl; lia. Qed.

Lemma count_groups_total (bucket : string -> Sql.label) (d : database)
  (groups : list (Sql.label * nat)) :
  Permutation groups (count_groups bucket d) ->
  list_sum (map snd groups) = List.length (motion d).
Proof.
  intros Hp. rewrite (list_sum_perm _ _ (Permutation_map snd Hp)).
  apply group_by_count_total.
Qed.

Section Counts.

Variable sql_date : string -> Sql.label.
Variable sql_strftime : string -> string -> Sql.label.
Variable none_not_iterable : string.

(** The motion counts of a successful by-day, by-hour or by-week response
    add up to the number of rows of the motion table: every event is counted
    in exactly one bucket. *)
Theorem motion_counts_add_up (req : request) (w : world) :
  (status (fst (get_motion_by_day sql_date req w)) = 200%Z ->
   exists groups,
     body (fst (get_motion_by_day sql_date req w))
     = Py.JArray (map (count_object "date") groups)
     /\ list_sum (map snd groups) = List.length (motion (db w)))
  /\ (status (fst (get_motion_by_hour sql_strftime req w)) = 200%Z ->
      exists groups,
        body (fst (get_motion_by_hour sql_strftime req w))
        = Py.JArray (map (count_object "hour") groups)
        /\ list_sum (map snd groups) = List.length (motion (db w)))
  /\ (status (fst (get_motion_by_week sql_strftime req w)) = 200%Z ->
      exists groups,
        body (fst (get_motion_by_week sql_strftime req w))
        = Py.JArray (map (count_object "week") groups)
        /\ list_sum (map snd groups) = List.length (motion (db w))).
Proof.
  unfold get_motion_by_day, motion_count_day, get_motion_by_hour, motion_count_hour,
    get_motion_by_week, motion_count_week.
  repeat split; intros H; apply fetch_list_success in H; simpl in H;
    rewrite count_rows_json in H by reflexivity;
    eexists; (split; [exact H |]).
  - apply (count_groups_total sql_date), by_label_desc_perm.
  - apply (count_groups_total (sql_strftime "%H")), by_label_asc_perm.
  - apply (count_groups_total (sql_strftime "%Y-%W")), by_label_desc_perm.
Qed.

(** The day the peak route names is one of the days the by-day route
    lists, with the same count. *)
Theorem peak_day_is_listed (req req' : request) (w : world) :
  status (fst (get_peak_motion sql_date none_not_iterable req w)) = 200%Z ->
  exists items,
    fst (get_motion_by_day sql_date req' w) = mkResponse 200 (Py.JArray items)
    /\ In (body (fst (get_peak_motion sql_date none_not_iterable req w))) items.
Proof.
  unfold get_peak_motion, motion_peak, get_motion_by_day, motion_count_day.
  rewrite fetch_single_run, fetch_list_run.
  destruct (conn_bound w); [| discriminate].
  destruct (store_fault w); [discriminate |]. simpl.
  destruct (busiest (count_groups sql_date (db w))) as [| g others] eqn:E;
    [discriminate |].
  intros _. simpl.
  exists (map (count_object "date") (by_label_desc (count_groups sql_date (db w)))).
  split.
  - unfold ok. f_equal. now apply count_rows_json.
  - rewrite (count_row_json "date" g eq_refl).
    apply in_map. unfold by_label_desc. apply order_by_in.
    apply limit_one_first in E. destruct E as [tail E].
    apply (order_by_in (Sql.desc Nat.leb snd)). rewrite E. now left.
Qed.

End Counts.

Lemma motion_counts_add_up_witness :
  exists groups,
    body (fst (get_motion_by_hour Sample.strftime Sample.get Sample.up))
    = Py.JArray (map (count_object "hour") groups)
    /\ list_sum (map snd groups) = List.length Sample.events.
Proof.
  destruct (motion_counts_add_up Sample.date Sample.strftime Sample.get Sample.up)
    as (_ & H & _).
  apply H. reflexivity.
Defined.

Lemma peak_day_is_listed_witness :
  exists items,
    fst (get_motion_by_day Sample.date Sample.get Sample.up)
    = mkResponse 200 (Py.JArray items)
    /\ In (body (fst (get_peak_motion Sample.date Sample.not_iterable Sample.get
                        Sample.up))) items.
Proof.
  apply (peak_day_is_listed Sample.date Sample.not_iterable Sample.get Sample.get
           Sample.up).
  reflexivity.
Defined.

Section Empty.

Variable sql_date : string -> Sql.label.
Variable sql_strftime : string -> string -> Sql.label.
Variable json_dumps : Py.json -> string.
Variable none_not_iterable : string.

(** On empty tables every list route that succeeds answers with the empty
    array, where the peak routes answer 500. *)
Theorem empty_tables_list_nothing (rt : route) (req : request) (w : world) :
  temperature (db w) = [] ->
  motion (db w) = [] ->
  returns_list rt = true ->
  status (fst (view sql_date sql_strftime json_dumps none_not_iterable rt req w))
  = 200%Z ->
  body (fst (view sql_date sql_strftime json_dumps none_not_iterable rt req w))
  = Py.JArray [].
Proof.
  intros Ht Hm Hlist.
  destruct rt; try discriminate Hlist; unfold view;
    try rewrite temperature_in_range_run; try rewrite motion_in_range_run;
    try (destruct (_ && _); [| discriminate]);
    unfold get_temperature_data, get_motion_data, get_daily_temperature_average,
      get_weekly_temperature_average, get_monthly_temperature_average,
      get_motion_by_day, get_temperature_by_day, get_motion_by_hour,
      get_motion_by_week,
      temperature_latest, motion_latest, temperature_average_day,
      temperature_average_week, temperature_average_month, motion_count_day,
      motion_count_hour, motion_count_week, temperature_between, motion_between;
    intros H; apply fetch_list_success in H; rewrite H;
    unfold average_groups, count_groups, rows_between, latest_by_timestamp;
    cbn [Sql.tuples Sql.description];
    rewrite ?Ht, ?Hm; reflexivity.
Qed.

End Empty.

Lemma empty_tables_list_nothing_witness :
  body (fst (view Sample.date Sample.strftime Sample.dumps Sample.not_iterable
               data_temperature_average_week Sample.get Sample.empty))
  = Py.JArray []
  /\ body (fst (view Sample.date Sample.strftime Sample.dumps Sample.not_iterable
                  data_motion_range Sample.january Sample.empty))
     = Py.JArray [].
Proof.
  split.
  - apply (empty_tables_list_nothing Sample.date Sample.strftime Sample.dumps
             Sample.not_iterable data_temperature_average_week Sample.get
             Sample.empty); reflexivity.
  - apply (empty_tables_list_nothing Sample.date Sample.strftime Sample.dumps
             Sample.not_iterable data_motion_range Sample.january Sample.empty);
      reflexivity.
Defined.

(** ** Beyond the claims: the summary text *)

Lemma lstrip_first (s : string) : is_space_char (first_char (Py.lstrip s)) = false.
Proof.
  induction s as [| c s IH]; simpl; [reflexivity |].
  destruct (Py.isspace c) eqn:E; [exact IH | simpl; exact E].
Qed.

Lemma rstrip_first (s : string) :
  Py.rstrip s = EmptyString \/ first_char (Py.rstrip s) = first_char s.
Proof.
  destruct s as [| c s]; simpl; [now left |].
  destruct (Py.rstrip s); [| now right].
  destruct (Py.isspace c); [now left | now right].
Qed.

Lemma rstrip_last (s : string) : is_space_char (last_char (Py.rstrip s)) = false.
Proof.
  induction s as [| c s IH]; simpl; [reflexivity |].
  destruct (Py.rstrip s) as [| k kept] eqn:E.
  - destruct (Py.isspace c) eqn:Ec; simpl; [reflexivity | exact Ec].
  - exact IH.
Qed.

Lemma rstrip_idempotent (s : string) : Py.rstrip (Py.rstrip s) = Py.rstrip s.
Proof.
  induction s as [| c s IH]; simpl; [reflexivity |].
  destruct (Py.rstrip s) as [| k kept] eqn:E.
  - destruct (Py.isspace c) eqn:Ec; simpl; [reflexivity | now rewrite Ec].
  - change (Py.rstrip (String c (String k kept))) with
      (match Py.rstrip (String k kept) with
       | EmptyString => if Py.isspace c then EmptyString else String c EmptyString
       | String _ _ as tail => String c tail
       end).
    now rewrite IH.
Qed.

Lemma lstrip_fixed (s : string) :
  is_space_char (first_char s) = false -> Py.lstrip s = s.
Proof. destruct s as [| c s]; simpl; [reflexivity | now intros ->]. Qed.

Lemma strip_first (s : string) : is_space_char (first_char (Py.strip s)) = false.
Proof.
  unfold Py.strip. destruct (rstrip_first (Py.lstrip s)) as [-> | ->];
    [reflexivity | apply lstrip_first].
Qed.

Lemma strip_idempotent (s : string) : Py.strip (Py.strip s) = Py.strip s.
Proof.
  unfold Py.strip at 1. rewrite (lstrip_fixed _ (strip_first s)).
  unfold Py.strip. apply rstrip_idempotent.
Qed.

(** The summary of a successful POST /summarize neither begins nor ends
    with whitespace, and stripping it again changes nothing. *)
Theorem summary_is_stripped (json_dumps : Py.json -> string) (req : request)
  (w : world) :
  status (fst (get_summary json_dumps req w)) = 200%Z ->
  exists summary,
    body (fst (get_summary json_dumps req w))
    = Py.JObject [("summary", Py.JString summary)]
    /\ is_space_char (first_char summary) = false
    /\ is_space_char (last_char summary) = false
    /\ Py.strip summary = summary.
Proof.
  rewrite summary_run.
  destruct (request_json req) as [data | msg]; [| discriminate].
  destruct (Py.truthy data); [| discriminate]. cbv zeta.
  destruct (llm w (summary_request (json_dumps data))) as [completion | msg];
    [| discriminate].
  destruct (first_choice completion) as [content | msg]; [| discriminate].
  destruct content as [text |]; [| discriminate]. simpl. intros _.
  exists (Py.strip text).
  repeat split.
  - apply strip_first.
  - apply rstrip_last.
  - apply strip_idempotent.
Qed.

Lemma summary_is_stripped_witness :
  exists summary,
    body (fst (get_summary Sample.dumps (Sample.post (Py.JBool true)) Sample.up))
    = Py.JObject [("summary", Py.JString summary)]
    /\ is_space_char (first_char summary) = false
    /\ is_space_char (last_char summary) = false
    /\ Py.strip summary = summary.
Proof.
  apply (summary_is_stripped Sample.dumps (Sample.post (Py.JBool true)) Sample.up).
  reflexivity.
Defined.

(** ** Beyond the claims: the summary route and the store *)

(** POST /summarize does not depend on the store: with the same
    text-generation service the response is the same whether [conn] is
    bound or not, whether the store fails or not, and whatever it holds. *)
Theorem summarize_ignores_store (json_dumps : Py.json -> string) (req : request)
  (w w' : world) :
  (forall call, llm w call = llm w' call) ->
  fst (get_summary json_dumps req w) = fst (get_summary json_dumps req w').
Proof.
  intros H. rewrite !summary_run.
  destruct (request_json req) as [data | msg]; [| reflexivity].
  destruct (Py.truthy data); [| reflexivity]. cbv zeta.
  rewrite <- H.
  now destruct (llm w (summary_request (json_dumps data))).
Qed.

Lemma summarize_ignores_store_witness :
  fst (get_summary Sample.dumps (Sample.post (Py.JBool true)) Sample.up)
  = fst (get_summary Sample.dumps (Sample.post (Py.JBool true))
           (mkWorld false (Some "connection lost") (mkDatabase [] [])
              (Sample.service "  Mild and quiet. ") [])).
Proof.
  apply (summarize_ignores_store Sample.dumps (Sample.post (Py.JBool true)) Sample.up
           (mkWorld false (Some "connection lost") (mkDatabase [] [])
              (Sample.service "  Mild and quiet. ") [])).
  intros call. reflexivity.
Defined.
